(** * qiskit.circuit.duration: durations of a circuit, from seconds to dt

    A shallow embedding of [qiskit/circuit/duration.py] and the proofs of
    its specification.

    Python's [float] is IEEE 754 binary64, which is Rocq's primitive
    [float]; Python's [int] is [Z].  A circuit is an object in a store, so
    that mutation in place, [copy] and object identity can be told apart.
    Exceptions and warnings are explicit: a computation takes the world
    (store and warning log) and returns the world it leaves behind with a
    result or the exception raised. *)

From Stdlib Require Import ZArith QArith Qabs Floats String Ascii List Lia Bool.
From stdpp Require Import base gmap.

#[local] Set Warnings "-inexact-float".
#[local] Open Scope Z_scope.

(** ** Exceptions and results *)

Inductive exn : Type :=
| CircuitError (msg : string)
| ZeroDivisionError
| OverflowError
| ValueError
| PrefixError (unit : string)
| UnboundReference.

Inductive result (A : Type) : Type :=
| Ok (a : A)
| Raise (e : exn).
Arguments Ok {A} a.
Arguments Raise {A} e.

(** A Python number as [duration.py] meets it: an [int] or a [float]. *)
Inductive num : Type :=
| PyInt (z : Z)
| PyFloat (f : float).

(** ** Python's arithmetic on [int] and [float] *)

Module Py.

Definition rbind {A B} (r : result A) (k : A -> result B) : result B :=
  match r with
  | Ok a => k a
  | Raise e => Raise e
  end.

(** [float(z)]: the binary64 nearest to [z], ties to even;
    [OverflowError] from the midpoint between the largest binary64 and
    [2^1024] on, where the rounded value would be infinite. *)
Definition float_of_int (z : Z) : result float :=
  if Z.abs z <? 2 ^ 1024 - 2 ^ 970
  then Ok (SF2Prim (binary_normalize prec emax z 0 false))
  else Raise OverflowError.

Definition to_float (x : num) : result float :=
  match x with
  | PyInt z => float_of_int z
  | PyFloat f => Ok f
  end.

(** [a / b] with [b] a float: the left operand is converted first, then
    a zero divisor (of either sign) raises. *)
Definition truediv (a : num) (b : float) : result float :=
  rbind (to_float a) (fun fa =>
  if (b =? 0)%float then Raise ZeroDivisionError else Ok (fa / b)%float).

(** [z * b] with [z] an int and [b] a float. *)
Definition int_mul_float (z : Z) (b : float) : result float :=
  rbind (float_of_int z) (fun fz => Ok (fz * b)%float).

(** [a - b] with [b] a float. *)
Definition num_sub_float (a : num) (b : float) : result float :=
  rbind (to_float a) (fun fa => Ok (fa - b)%float).

(** The integer nearest to [a / b], ties to the even one. *)
Definition round_half_even (a : Z) (b : positive) : Z :=
  let q := a / Zpos b in
  let r := a mod Zpos b in
  match 2 * r ?= Zpos b with
  | Lt => q
  | Gt => q + 1
  | Eq => if Z.even q then q else q + 1
  end.

(** [round(x)] of a float, one argument: an [int], exactly; infinities
    and NaN raise. *)
Definition round (x : float) : result Z :=
  match Prim2SF x with
  | S754_nan => Raise ValueError
  | S754_infinity _ => Raise OverflowError
  | S754_zero _ => Ok 0
  | S754_finite s m e =>
      let v := cond_Zopp s (Zpos m) in
      Ok match e with
         | Z0 => v
         | Zpos p => v * 2 ^ Zpos p
         | Zneg p => round_half_even v (2 ^ p)
         end
  end.

(** [str.endswith]: the last [length suffix] characters are [suffix]. *)
Definition endswith (s suffix : string) : bool :=
  let n := String.length s in
  let k := String.length suffix in
  (k <=? n)%nat && String.eqb (substring (n - k) k s) suffix.

End Py.

(** The exact value of a finite binary64, as a rational. *)
Definition float_value (x : float) : option Q :=
  match Prim2SF x with
  | S754_zero _ => Some 0%Q
  | S754_finite s m e =>
      let v := cond_Zopp s (Zpos m) in
      Some match e with
           | Z0 => inject_Z v
           | Zpos p => inject_Z (v * 2 ^ Zpos p)
           | Zneg p => (v # 2 ^ p)%Q
           end
  | _ => None
  end.

(** [n] is an integer nearest to [q]. *)
Definition nearest_integer (q : Q) (n : Z) : Prop :=
  forall k : Z, (Qabs (q - inject_Z n) <= Qabs (q - inject_Z k))%Q.

(** ** The store of circuits *)

(** Modelled from the spec: the class [QuantumCircuit] is not in this
    module; of a circuit, the instruction list (here the names) and the two
    fields this module reads and writes: [duration], which may be [None],
    and [unit], a string. *)
Module QuantumCircuit.
Record t : Type := mk {
  data : list string;
  duration : option num;
  unit : string
}.
End QuantumCircuit.
Abbreviation circuit := QuantumCircuit.t.

Definition ref : Type := positive.

(** What [warnings.warn] is given: the message is built from the rounded
    count, the reconstructed seconds and the requested seconds. *)
Inductive warning : Type :=
| UserWarning (res : Z) (reconstructed : float) (requested : num).

Record world : Type := World {
  heap : gmap ref circuit;
  warned : list warning
}.

Definition M (A : Type) : Type := world -> world * result A.

Definition ret {A} (a : A) : M A := fun w => (w, Ok a).

Definition bind {A B} (m : M A) (k : A -> M B) : M B :=
  fun w =>
    match m w with
    | (w', Ok a) => k a w'
    | (w', Raise e) => (w', Raise e)
    end.

Definition raise {A} (e : exn) : M A := fun w => (w, Raise e).

Definition lift {A} (r : result A) : M A := fun w => (w, r).

Declare Scope py_scope.
Delimit Scope py_scope with py.
Notation "x <- m ;; k" := (bind m (fun x => k))
  (at level 100, m at next level, k at level 200, right associativity)
  : py_scope.
Notation "m ;; k" := (bind m (fun _ => k))
  (at level 100, k at level 200, right associativity) : py_scope.
#[local] Open Scope py_scope.

(** [warnings.warn]: the warning is recorded and the call goes on (the
    filter that turns warnings into exceptions is not in force). *)
Definition warn (msg : warning) : M unit :=
  fun w => (World (heap w) (warned w ++ [msg]), Ok tt).

(** Reading the fields of the object behind a reference. *)
Definition read (r : ref) : M circuit :=
  fun w =>
    match heap w !! r with
    | Some c => (w, Ok c)
    | None => (w, Raise UnboundReference)
    end.

Definition update (r : ref) (f : circuit -> circuit) : M unit :=
  fun w =>
    match heap w !! r with
    | Some c => (World (<[r := f c]> (heap w)) (warned w), Ok tt)
    | None => (w, Raise UnboundReference)
    end.

Definition set_duration (r : ref) (d : option num) : M unit :=
  update r (fun c =>
    QuantumCircuit.mk (QuantumCircuit.data c) d (QuantumCircuit.unit c)).

Definition set_unit (r : ref) (u : string) : M unit :=
  update r (fun c =>
    QuantumCircuit.mk (QuantumCircuit.data c) (QuantumCircuit.duration c) u).

(** Modelled from the spec: [QuantumCircuit.copy] is not in this module;
    a copy is a new object, at a reference the store does not hold yet,
    with the fields of the original. *)
Definition copy (r : ref) : M ref :=
  fun w =>
    match heap w !! r with
    | Some c =>
        let r' := fresh (dom (heap w)) in
        (World (<[r' := c]> (heap w)) (warned w), Ok r')
    | None => (w, Raise UnboundReference)
    end.

(** ** The module *)

Definition duration_in_dt (duration_in_sec : num) (dt_in_sec : float) : M Z :=
  q <- lift (Py.truediv duration_in_sec dt_in_sec) ;;
  res <- lift (Py.round q) ;;
  p <- lift (Py.int_mul_float res dt_in_sec) ;;
  x <- lift (Py.num_sub_float duration_in_sec p) ;;
  let rounding_error := abs x in
  (if (1e-15 <? rounding_error)%float
   then
     p' <- lift (Py.int_mul_float res dt_in_sec) ;;
     warn (UserWarning res p' duration_in_sec)
   else ret tt) ;;
  ret res.

Definition InvalidTimeUnit (unit : string) : exn :=
  CircuitError ("Invalid time unit: '" ++ unit ++ "'").

(** The two assignments at the end of the conversion. *)
Definition assign (circ : ref) (n : Z) : M unit :=
  set_duration circ (Some (PyInt n)) ;; set_unit circ "dt".

Section Convert.

(** [qiskit.utils.units.apply_prefix], which is not in this module: the
    value in seconds of a duration whose unit carries a metric prefix,
    or the exception it raises. *)
Variable apply_prefix : num -> string -> result num.

Definition convert_durations_to_dt
    (qc : ref) (dt_in_sec : float) (inplace : bool) : M (option ref) :=
  circ <- (if inplace then ret qc else copy qc) ;;
  c <- read circ ;;
  (match QuantumCircuit.duration c with
   | Some d =>
       if negb (QuantumCircuit.unit c =? "dt")%string
       then
         (if negb (Py.endswith (QuantumCircuit.unit c) "s")
          then raise (InvalidTimeUnit (QuantumCircuit.unit c))
          else ret tt) ;;
         duration <-
           (if negb (QuantumCircuit.unit c =? "s")%string
            then lift (apply_prefix d (QuantumCircuit.unit c))
            else ret d) ;;
         n <- duration_in_dt duration dt_in_sec ;;
         set_duration circ (Some (PyInt n)) ;;
         set_unit circ "dt"
       else ret tt
   | None => ret tt
   end) ;;
  if negb inplace then ret (Some circ) else ret None.

(** What the conversion does on its target [circ], once chosen. *)
Definition on_target (circ : ref) (dt_in_sec : float) : M unit :=
  c <- read circ ;;
  match QuantumCircuit.duration c with
  | None => ret tt
  | Some d =>
      if (QuantumCircuit.unit c =? "dt")%string then ret tt
      else if Py.endswith (QuantumCircuit.unit c) "s" then
        seconds <-
          (if (QuantumCircuit.unit c =? "s")%string then ret d
           else lift (apply_prefix d (QuantumCircuit.unit c))) ;;
        n <- duration_in_dt seconds dt_in_sec ;;
        assign circ n
      else raise (InvalidTimeUnit (QuantumCircuit.unit c))
  end.

End Convert.

(** ** Definitions the statements use *)

(** [round(d / s)], as the first line of [duration_in_dt] computes it. *)
Definition rounded_quotient (d : num) (s : float) : result Z :=
  Py.rbind (Py.truediv d s) Py.round.

(** [abs(d - res * s)], as its second line does. *)
Definition reconstruction_error (d : num) (s : float) (res : Z) : result float :=
  Py.rbind (Py.int_mul_float res s) (fun p =>
  Py.rbind (Py.num_sub_float d p) (fun x => Ok (abs x))).

Definition emit (msg : warning) (w : world) : world :=
  World (heap w) (warned w ++ [msg]).

(** The circuit [c] after a conversion that gave [n]. *)
Definition converted (c : circuit) (n : Z) : circuit :=
  QuantumCircuit.mk (QuantumCircuit.data c) (Some (PyInt n)) "dt".

(** Modelled from the spec: [apply_prefix] is not in this module; the
    metric prefix that a unit starts with scales the value by a power of
    ten, the result being the binary64 nearest to the scaled value, in
    plain seconds; a unit whose prefix is not recognised makes it fail. *)
Definition prefix_exponent (unit : string) : option Z :=
  match unit with
  | String "f" _ => Some (-15)
  | String "p" _ => Some (-12)
  | String "n" _ => Some (-9)
  | String "u" _ => Some (-6)
  | String "194" (String "181" _) => Some (-6)
  | String "m" _ => Some (-3)
  | String "k" _ => Some 3
  | String "M" _ => Some 6
  | String "G" _ => Some 9
  | String "T" _ => Some 12
  | String "P" _ => Some 15
  | _ => None
  end.

Definition apply_prefix_si (value : num) (unit : string) : result num :=
  match prefix_exponent unit with
  | None => Raise (PrefixError unit)
  | Some k =>
      Py.rbind (Py.to_float value) (fun v =>
      Py.rbind (Py.float_of_int (10 ^ Z.abs k)) (fun f =>
      Ok (PyFloat (if k <? 0 then (v / f)%float else (v * f)%float))))
  end.

(** The duration in seconds that the conversion hands to [duration_in_dt]:
    the stored one for the unit "s", what [apply_prefix] makes of it
    otherwise. *)
Definition seconds_of (apply_prefix : num -> string -> result num)
    (c : circuit) (d : num) : result num :=
  if (QuantumCircuit.unit c =? "s")%string then Ok d
  else apply_prefix d (QuantumCircuit.unit c).

(** The exceptions that Python's arithmetic raises in [duration_in_dt]. *)
Definition arithmetic_error (e : exn) : Prop :=
  e = ZeroDivisionError \/ e = OverflowError \/ e = ValueError.

(** Sample worlds and circuits. *)
Definition w0 : world := World ∅ [].
Definition qc1 : ref := 1%positive.
Definition store1 (c : circuit) : world := World {[qc1 := c]} [].
Definition c_default : circuit := QuantumCircuit.mk ["h"%string; "cx"%string] None "dt".
Definition c_scheduled : circuit :=
  QuantumCircuit.mk ["h"%string; "cx"%string] (Some (PyInt 160)) "dt".
Definition c_unset_ms : circuit := QuantumCircuit.mk ["h"%string] None "ms".
Definition c_unset_hz : circuit := QuantumCircuit.mk ["h"%string] None "Hz".
Definition c_hz : circuit := QuantumCircuit.mk ["h"%string] (Some (PyInt 5)) "Hz".
Definition c_5ms : circuit := QuantumCircuit.mk ["h"%string] (Some (PyInt 5)) "ms".
Definition c_1us : circuit :=
  QuantumCircuit.mk ["h"%string] (Some (PyFloat 1e-6)) "s".

Arguments duration_in_dt : simpl never.
Arguments set_duration : simpl never.
Arguments set_unit : simpl never.
Arguments copy : simpl never.
Arguments read : simpl never.

(** ** Rounding to the nearest integer *)

Ltac Q_to_Z :=
  unfold Qle, Qeq, Qabs, Qminus, Qplus, Qopp, inject_Z;
  cbn [Qnum Qden]; rewrite ?Pos2Z.inj_mul.


Section RoundHalfEven.

Variables (a : Z) (b : positive).

Lemma round_half_even_error :
  2 * Z.abs (Py.round_half_even a b * Zpos b - a) <= Zpos b.
Proof.
  unfold Py.round_half_even.
  pose proof (Z.div_mod a (Zpos b) ltac:(lia)) as Hdm.
  pose proof (Z.mod_pos_bound a (Zpos b) ltac:(lia)) as Hr.
  destruct (Z.compare_spec (2 * (a mod Zpos b)) (Zpos b)) as [He|Hl|Hg].
  - destruct (Z.even (a / Zpos b)); nia.
  - nia.
  - nia.
Qed.

Lemma round_half_even_tie :
  2 * Z.abs (Py.round_half_even a b * Zpos b - a) = Zpos b ->
  Z.even (Py.round_half_even a b) = true.
Proof.
  unfold Py.round_half_even.
  pose proof (Z.div_mod a (Zpos b) ltac:(lia)) as Hdm.
  pose proof (Z.mod_pos_bound a (Zpos b) ltac:(lia)) as Hr.
  destruct (Z.compare_spec (2 * (a mod Zpos b)) (Zpos b)) as [He|Hl|Hg].
  - intros _. destruct (Z.even (a / Zpos b)) eqn:Hev; [exact Hev|].
    rewrite Z.even_add, Hev. reflexivity.
  - intros H. exfalso. nia.
  - intros H. exfalso. nia.
Qed.

Lemma round_half_even_nearest (k : Z) :
  Z.abs (Py.round_half_even a b * Zpos b - a) <= Z.abs (k * Zpos b - a).
Proof.
  pose proof round_half_even_error as He.
  destruct (Z.eq_dec k (Py.round_half_even a b)) as [->|Hne]; [lia|].
  assert (Zpos b <= Z.abs ((k - Py.round_half_even a b) * Zpos b)) by nia.
  nia.
Qed.

Lemma round_half_even_bound :
  Z.abs (Py.round_half_even a b) <= Z.abs a + 1.
Proof.
  pose proof round_half_even_error as He. nia.
Qed.

End RoundHalfEven.

(** ** What every binary64 satisfies *)

Lemma digits2_pos_gt (m : positive) : Zpos m < 2 ^ Zpos (digits2_pos m).
Proof.
  induction m as [m IH|m IH|]; simpl digits2_pos.
  - rewrite Pos2Z.inj_succ, Z.pow_succ_r by lia. lia.
  - rewrite Pos2Z.inj_succ, Z.pow_succ_r by lia. lia.
  - reflexivity.
Qed.

Lemma finite_bounds (x : float) s m e :
  Prim2SF x = S754_finite s m e -> Zpos m < 2 ^ 53 /\ e <= 971.
Proof.
  intros Hx. pose proof (Prim2SF_valid x) as Hv. rewrite Hx in Hv.
  unfold SpecFloat.valid_binary, bounded, canonical_mantissa, fexp in Hv.
  apply andb_true_iff in Hv as [Hc He].
  apply Z.eqb_eq in Hc. apply Z.leb_le in He.
  unfold prec, emax in *. split; [|lia].
  pose proof (digits2_pos_gt m) as Hd.
  assert (Zpos (digits2_pos m) <= 53) as Hle by lia.
  apply Z.lt_le_trans with (1 := Hd).
  apply Z.pow_le_mono_r; lia.
Qed.

Lemma round_bound (x : float) (n : Z) :
  Py.round x = Ok n -> Z.abs n < 2 ^ 1024 - 2 ^ 970.
Proof.
  unfold Py.round. destruct (Prim2SF x) as [s|s| |s m e] eqn:Hx; try discriminate.
  - intros [= <-]. reflexivity.
  - intros [= <-]. destruct (finite_bounds x s m e Hx) as [Hm He].
    assert (Z.abs (cond_Zopp s (Zpos m)) = Zpos m) as Hv by (destruct s; reflexivity).
    assert (2 ^ 53 + 1 < 2 ^ 1024 - 2 ^ 970) as Hsmall by (vm_compute; reflexivity).
    destruct e as [|p|p].
    + lia.
    + rewrite Z.abs_mul, Hv, (Z.abs_eq (2 ^ Zpos p)) by (apply Z.pow_nonneg; lia).
      assert (2 ^ Zpos p <= 2 ^ 971) as Hp by (apply Z.pow_le_mono_r; lia).
      assert ((2 ^ 53 - 1) * 2 ^ 971 < 2 ^ 1024 - 2 ^ 970) as Hbig
        by (vm_compute; reflexivity).
      apply Z.le_lt_trans with (2 := Hbig).
      apply Z.mul_le_mono_nonneg; lia.
    + pose proof (round_half_even_bound (cond_Zopp s (Zpos m)) (2 ^ p)) as Hb.
      lia.
Qed.

Lemma float_of_int_round (x : float) (n : Z) :
  Py.round x = Ok n -> exists f, Py.float_of_int n = Ok f.
Proof.
  intros Hn. apply round_bound in Hn. unfold Py.float_of_int.
  apply Z.ltb_lt in Hn. rewrite Hn. eexists; reflexivity.
Qed.

Lemma positive_nonzero (s : float) :
  (0 <? s)%float = true -> (s =? 0)%float = false.
Proof.
  rewrite FloatAxioms.ltb_spec, FloatAxioms.eqb_spec.
  replace (Prim2SF 0%float) with (S754_zero false) by reflexivity.
  unfold SFltb, SFeqb, SFcompare.
  destruct (Prim2SF s) as [[]|[]| |[] m e]; simpl; congruence.
Qed.

(** ** Converting an integer to binary64, exactly *)

Lemma digits2_pos_iter (m : positive) (k : positive) :
  Zpos (digits2_pos (Pos.iter xO m k)) = Zpos (digits2_pos m) + Zpos k.
Proof.
  induction k using Pos.peano_ind.
  - cbn. lia.
  - rewrite Pos.iter_succ. cbn [digits2_pos]. lia.
Qed.

Lemma Zpos_iter_xO (m k : positive) :
  Zpos (Pos.iter xO m k) = Zpos m * 2 ^ Zpos k.
Proof.
  induction k using Pos.peano_ind.
  - cbn. lia.
  - rewrite Pos.iter_succ, Pos2Z.inj_succ, Z.pow_succ_r by lia.
    rewrite Pos2Z.inj_xO, IHk. lia.
Qed.

Lemma iter_pos_shr_1 (k m : positive) :
  SpecFloat.iter_pos shr_1 k (Build_shr_record (Zpos (Pos.iter xO m k)) false false)
  = Build_shr_record (Zpos m) false false.
Proof.
  revert m. induction k as [k IH|k IH|]; intros m; cbn [SpecFloat.iter_pos Pos.iter].
  - cbn [shr_1 orb]. rewrite IH, IH. reflexivity.
  - rewrite IH, IH. reflexivity.
  - reflexivity.
Qed.

Lemma digits2_pos_le (p : positive) : 2 ^ (Zpos (digits2_pos p) - 1) <= Zpos p.
Proof.
  induction p as [p IH|p IH|]; cbn [digits2_pos].
  - rewrite Pos2Z.inj_succ. replace (Z.succ (Zpos (digits2_pos p)) - 1)
      with (Z.succ (Zpos (digits2_pos p) - 1)) by lia.
    rewrite Z.pow_succ_r by lia. lia.
  - rewrite Pos2Z.inj_succ. replace (Z.succ (Zpos (digits2_pos p)) - 1)
      with (Z.succ (Zpos (digits2_pos p) - 1)) by lia.
    rewrite Z.pow_succ_r by lia. lia.
  - reflexivity.
Qed.

Lemma digits2_pos_small (p : positive) :
  Zpos p < 2 ^ 53 -> Zpos (digits2_pos p) <= 53.
Proof.
  intros Hp. pose proof (digits2_pos_le p) as Hle.
  destruct (Z_le_gt_dec (Zpos (digits2_pos p)) 53) as [|Hgt]; [assumption|].
  assert (2 ^ 53 <= 2 ^ (Zpos (digits2_pos p) - 1))
    by (apply Z.pow_le_mono_r; lia).
  lia.
Qed.

Lemma binary_round_aux_canonical (sx : bool) (m : positive) (e : Z) :
  canonical_mantissa prec emax m e = true ->
  e <= emax - prec ->
  binary_round_aux prec emax sx (Zpos m) e loc_Exact = S754_finite sx m e.
Proof.
  intros Hc He. unfold canonical_mantissa in Hc. apply Z.eqb_eq in Hc.
  unfold binary_round_aux, shr_fexp. cbn [Zdigits2 shr_record_of_loc].
  rewrite Hc, Z.sub_diag. cbn [shr shr_m loc_of_shr_record round_nearest_even].
  cbn [Zdigits2 shr_record_of_loc]. rewrite Hc, Z.sub_diag.
  cbn [shr shr_m]. apply Z.leb_le in He. rewrite He. reflexivity.
Qed.

(** Small integers: at most 53 bits. *)
Lemma binary_round_small (sx : bool) (p : positive) :
  Zpos (digits2_pos p) <= 53 ->
  exists m e,
    binary_round prec emax sx p 0 = S754_finite sx m e /\
    valid_binary (S754_finite sx m e) = true /\
    e <= 0 /\ Zpos m = Zpos p * 2 ^ (- e).
Proof.
  intros Hd. unfold binary_round.
  assert (fexp prec emax (Zpos (digits2_pos p) + 0) = Zpos (digits2_pos p) - 53)
    as Hf by (unfold fexp, SpecFloat.emin, prec, emax; lia).
  rewrite Hf. unfold shl_align.
  destruct (Zpos (digits2_pos p) - 53 - 0) as [|k|k] eqn:Hk; [|lia|].
  - exists p, 0.
    assert (canonical_mantissa prec emax p 0 = true) as Hc.
    { unfold canonical_mantissa. apply Z.eqb_eq. rewrite Hf. lia. }
    rewrite (binary_round_aux_canonical sx p 0 Hc) by (unfold prec, emax; lia).
    split; [reflexivity|]. split.
    + cbn [SpecFloat.valid_binary]. unfold bounded. rewrite Hc. reflexivity.
    + split; [lia|]. cbn. lia.
  - exists (Pos.iter xO p k), (Zpos (digits2_pos p) - 53).
    assert (canonical_mantissa prec emax (Pos.iter xO p k)
              (Zpos (digits2_pos p) - 53) = true) as Hc.
    { unfold canonical_mantissa. apply Z.eqb_eq. rewrite digits2_pos_iter.
      unfold fexp, SpecFloat.emin, prec, emax. lia. }
    rewrite (binary_round_aux_canonical sx _ _ Hc) by (unfold prec, emax; lia).
    split; [reflexivity|]. split.
    + cbn [SpecFloat.valid_binary]. unfold bounded. rewrite Hc.
      apply Z.leb_le. unfold prec, emax. lia.
    + split; [lia|]. rewrite Zpos_iter_xO. f_equal. f_equal. lia.
Qed.

(** Large integers: a 53-bit mantissa shifted left. *)
Lemma binary_round_shifted (sx : bool) (m k : positive) :
  Zpos (digits2_pos m) = 53 -> Zpos k <= 971 ->
  binary_round prec emax sx (Pos.iter xO m k) 0 = S754_finite sx m (Zpos k) /\
  valid_binary (S754_finite sx m (Zpos k)) = true.
Proof.
  intros Hd Hk.
  assert (canonical_mantissa prec emax m (Zpos k) = true) as Hc.
  { unfold canonical_mantissa. apply Z.eqb_eq.
    unfold fexp, SpecFloat.emin, prec, emax. lia. }
  split.
  - unfold binary_round. rewrite digits2_pos_iter.
    assert (fexp prec emax (Zpos (digits2_pos m) + Zpos k + 0) = Zpos k) as Hf
      by (unfold fexp, SpecFloat.emin, prec, emax; lia).
    rewrite Hf. unfold shl_align. rewrite Z.sub_0_r. cbv beta iota zeta.
    unfold binary_round_aux, shr_fexp.
    cbn [Zdigits2 shr_record_of_loc]. rewrite digits2_pos_iter, Hf.
    rewrite Z.sub_0_r. cbn [shr]. rewrite iter_pos_shr_1.
    cbn [shr_m loc_of_shr_record round_nearest_even Zdigits2 shr_record_of_loc].
    unfold canonical_mantissa in Hc. apply Z.eqb_eq in Hc.
    rewrite Z.add_0_l, Hc, Z.sub_diag. cbn [shr shr_m].
    assert ((Zpos k <=? emax - prec) = true) as ->
      by (apply Z.leb_le; unfold prec, emax; lia).
    reflexivity.
  - cbn [SpecFloat.valid_binary]. unfold bounded. rewrite Hc.
    apply Z.leb_le. unfold prec, emax. lia.
Qed.

Lemma float_value_SF2Prim (sx : bool) (m : positive) (e : Z) :
  valid_binary (S754_finite sx m e) = true ->
  float_value (SF2Prim (S754_finite sx m e))
  = Some match e with
         | Z0 => inject_Z (cond_Zopp sx (Zpos m))
         | Zpos p => inject_Z (cond_Zopp sx (Zpos m) * 2 ^ Zpos p)
         | Zneg p => (cond_Zopp sx (Zpos m) # 2 ^ p)%Q
         end.
Proof.
  intros Hv. unfold float_value. rewrite (Prim2SF_SF2Prim _ Hv). reflexivity.
Qed.

Lemma cond_Zopp_mul (sx : bool) (a b : Z) :
  cond_Zopp sx a * b = cond_Zopp sx (a * b).
Proof. destruct sx; cbn; lia. Qed.

(** [float(z)] is exact for an integer of at most 53 bits. *)
Lemma float_of_int_small (z : Z) :
  Z.abs z < 2 ^ 53 ->
  exists f q, Py.float_of_int z = Ok f /\
              float_value f = Some q /\ (q == inject_Z z)%Q.
Proof.
  intros Hz. unfold Py.float_of_int.
  assert ((Z.abs z <? 2 ^ 1024 - 2 ^ 970) = true) as ->.
  { apply Z.ltb_lt. apply Z.lt_trans with (1 := Hz). vm_compute. reflexivity. }
  assert (forall sx p, Zpos p < 2 ^ 53 ->
            exists q, float_value (SF2Prim (binary_round prec emax sx p 0)) = Some q /\
                      (q == inject_Z (cond_Zopp sx (Zpos p)))%Q) as Hround.
  { intros sx p Hp.
    destruct (binary_round_small sx p (digits2_pos_small p Hp))
      as (m & e & -> & Hv & He & Hm).
    rewrite (float_value_SF2Prim sx m e Hv). eexists. split; [reflexivity|].
    destruct e as [|k|k]; [|lia|].
    - cbn in Hm. replace (Zpos m) with (Zpos p) by lia. reflexivity.
    - unfold Qeq, inject_Z. cbn [Qnum Qden].
      rewrite Pos2Z.inj_pow. change (- Z.neg k) with (Z.pos k) in Hm.
      destruct sx; cbn [cond_Zopp]; lia. }
  destruct z as [|p|p]; cbn [binary_normalize].
  - exists (SF2Prim (S754_zero false)), 0%Q. split; [reflexivity|].
    split; reflexivity.
  - destruct (Hround false p Hz) as (q & Hq & Heq). eauto.
  - destruct (Hround true p Hz) as (q & Hq & Heq). eauto.
Qed.

(** [float(z)] is exact for a 53-bit mantissa shifted left. *)
Lemma float_of_int_shifted (sx : bool) (m k : positive) :
  Zpos (digits2_pos m) = 53 -> Zpos k <= 971 ->
  exists f q,
    Py.float_of_int (cond_Zopp sx (Zpos m) * 2 ^ Zpos k) = Ok f /\
    float_value f = Some q /\
    (q == inject_Z (cond_Zopp sx (Zpos m) * 2 ^ Zpos k))%Q.
Proof.
  intros Hd Hk. unfold Py.float_of_int.
  assert ((Z.abs (cond_Zopp sx (Zpos m) * 2 ^ Zpos k) <? 2 ^ 1024 - 2 ^ 970)
          = true) as ->.
  { apply Z.ltb_lt. pose proof (digits2_pos_gt m) as Hm. rewrite Hd in Hm.
    rewrite Z.abs_mul, (Z.abs_eq (2 ^ Zpos k)) by (apply Z.pow_nonneg; lia).
    replace (Z.abs (cond_Zopp sx (Zpos m))) with (Zpos m) by (destruct sx; reflexivity).
    assert (2 ^ Zpos k <= 2 ^ 971) by (apply Z.pow_le_mono_r; lia).
    assert ((2 ^ 53 - 1) * 2 ^ 971 < 2 ^ 1024 - 2 ^ 970) as Hbig
      by (vm_compute; reflexivity).
    apply Z.le_lt_trans with (2 := Hbig). apply Z.mul_le_mono_nonneg; lia. }
  destruct (binary_round_shifted sx m k Hd Hk) as [Hr Hv].
  assert (binary_normalize prec emax (cond_Zopp sx (Zpos m) * 2 ^ Zpos k) 0 false
          = S754_finite sx m (Zpos k)) as ->.
  { rewrite cond_Zopp_mul, <- Zpos_iter_xO. destruct sx; exact Hr. }
  eexists; eexists. split; [reflexivity|].
  split; [exact (float_value_SF2Prim sx m (Zpos k) Hv)|reflexivity].
Qed.

(** What [round] returns converts back to a float exactly. *)
Lemma float_of_int_round_exact (x : float) (n : Z) :
  Py.round x = Ok n ->
  exists f q, Py.float_of_int n = Ok f /\
              float_value f = Some q /\ (q == inject_Z n)%Q.
Proof.
  unfold Py.round.
  destruct (Prim2SF x) as [s|s| |s m e] eqn:Hx; try discriminate.
  - intros [= <-]. apply float_of_int_small. reflexivity.
  - intros [= <-]. destruct (finite_bounds x s m e Hx) as [Hm He].
    assert (Z.abs (cond_Zopp s (Zpos m)) = Zpos m) as Hv
      by (destruct s; reflexivity).
    destruct e as [|k|k].
    + apply float_of_int_small. lia.
    + apply float_of_int_shifted; [|lia].
      pose proof (Prim2SF_valid x) as Hval. rewrite Hx in Hval.
      unfold SpecFloat.valid_binary, bounded, canonical_mantissa, fexp in Hval.
      apply andb_true_iff in Hval as [Hc _]. apply Z.eqb_eq in Hc.
      unfold SpecFloat.emin, prec, emax in Hc. lia.
    + apply float_of_int_small.
      pose proof (round_half_even_error (cond_Zopp s (Zpos m)) (2 ^ k)) as Herr.
      assert (2 <= Zpos (2 ^ k)) as Hb.
      { rewrite Pos2Z.inj_pow. change 2 with (2 ^ 1) at 1.
        apply Z.pow_le_mono_r; lia. }
      set (n := Py.round_half_even (cond_Zopp s (Zpos m)) (2 ^ k)) in *.
      set (b := Zpos (2 ^ k)) in *. set (v := cond_Zopp s (Zpos m)) in *.
      clearbody n b v. change (2 ^ 53) with 9007199254740992 in *. nia.
Qed.

(** [round] of a finite binary64 is an integer nearest to its exact value,
    the even one of the two when the value lies halfway. *)
Lemma round_nearest (x : float) (q : Q) :
  float_value x = Some q ->
  exists n, Py.round x = Ok n /\ nearest_integer q n /\
            ((Qabs (q - inject_Z n) == 1 # 2)%Q -> Z.even n = true).
Proof.
  unfold float_value, Py.round.
  destruct (Prim2SF x) as [s|s| |s m e]; try discriminate.
  - intros [= <-]. exists 0. split; [reflexivity|]. split.
    + intros k. Q_to_Z. lia.
    + reflexivity.
  - intros [= <-]. set (v := cond_Zopp s (Zpos m)). clearbody v.
    destruct e as [|p|p].
    + exists v. split; [reflexivity|]. split.
      * intros k. Q_to_Z. lia.
      * Q_to_Z. lia.
    + exists (v * 2 ^ Zpos p). split; [reflexivity|]. split.
      * intros k. Q_to_Z. lia.
      * Q_to_Z. lia.
    + set (D := (2 ^ p)%positive). clearbody D.
      exists (Py.round_half_even v D). split; [reflexivity|]. split.
      * intros k. pose proof (round_half_even_nearest v D k) as Hn.
        Q_to_Z.
        replace (v * 1 + - Py.round_half_even v D * Zpos D)
          with (- (Py.round_half_even v D * Zpos D - v)) by lia.
        replace (v * 1 + - k * Zpos D) with (- (k * Zpos D - v)) by lia.
        rewrite !Z.abs_opp. apply Z.mul_le_mono_nonneg_r; lia.
      * Q_to_Z. intros Ht. apply round_half_even_tie. lia.
Qed.

(** ** Running [duration_in_dt] *)

Lemma duration_in_dt_raises d s e w :
  rounded_quotient d s = Raise e -> duration_in_dt d s w = (w, Raise e).
Proof.
  unfold rounded_quotient, duration_in_dt, bind, lift.
  destruct (Py.truediv d s) as [q|e']; cbn.
  - destruct (Py.round q) as [n|e'']; [discriminate|]. now intros [= ->].
  - now intros [= ->].
Qed.

Lemma duration_in_dt_returns d s res w :
  rounded_quotient d s = Ok res ->
  exists p err,
    Py.int_mul_float res s = Ok p /\
    reconstruction_error d s res = Ok err /\
    duration_in_dt d s w =
      (if (1e-15 <? err)%float then emit (UserWarning res p d) w else w,
       Ok res).
Proof.
  unfold rounded_quotient, reconstruction_error, duration_in_dt, bind, lift.
  unfold Py.truediv, Py.num_sub_float.
  destruct (Py.to_float d) as [fd|e] eqn:Hd; cbn; [|discriminate].
  destruct (s =? 0)%float; cbn; [discriminate|].
  destruct (Py.round (fd / s)) as [n|e] eqn:Hn; [|discriminate].
  intros [= ->].
  destruct (float_of_int_round _ _ Hn) as [f Hf].
  unfold Py.int_mul_float. rewrite Hf. cbn.
  exists (f * s)%float, (abs (fd - f * s)). split; [reflexivity|].
  split; [reflexivity|].
  destruct (1e-15 <? abs (fd - f * s))%float; reflexivity.
Qed.

(** *** C1 *)

(** C1, as stated, fails: the quotient the code rounds is the binary64
    quotient, not the exact one.  For [d = 6755399441055746] and [s = 3]
    (both exact in binary64) the exact quotient is [2251799813685248 + 2/3],
    the binary64 quotient is [2251799813685248.5], and [duration_in_dt]
    returns [2251799813685248], which is not the integer nearest to [d/s];
    and for [d = 1e308], [s = 1e-308] the quotient overflows and nothing is
    returned. *)
Lemma duration_in_dt_not_nearest_to_exact_quotient :
  (exists qd qs,
      float_value 6755399441055746 = Some qd /\ (qd == 6755399441055746 # 1)%Q /\
      float_value 3 = Some qs /\ (qs == 3 # 1)%Q /\
      (0 <? 3)%float = true /\
      snd (duration_in_dt (PyFloat 6755399441055746) 3 w0)
        = Ok 2251799813685248 /\
      ~ nearest_integer (qd / qs) 2251799813685248) /\
  ((0 <? 1e-308)%float = true /\
   snd (duration_in_dt (PyFloat 1e308) 1e-308 w0) = Raise OverflowError).
Proof.
  split.
  - eexists; eexists.
    split; [vm_compute; reflexivity|]. split; [reflexivity|].
    split; [vm_compute; reflexivity|]. split; [reflexivity|].
    split; [reflexivity|]. split; [vm_compute; reflexivity|].
    intros Hn. specialize (Hn 2251799813685249).
    apply Qle_bool_iff in Hn. vm_compute in Hn. discriminate.
  - split; vm_compute; reflexivity.
Qed.

(** C1, amended: for every duration [d] that converts to a binary64 [fd]
    (a float, or an int) and every positive binary64 [s]: when the binary64
    quotient [fd / s] is finite, [duration_in_dt d s] returns
    [round (fd / s)], an integer nearest to the exact value [q] of that
    binary64 quotient, the even one when [q] lies halfway between two
    integers; when the binary64 quotient is infinite (it overflows),
    [OverflowError] is raised, and when it is a NaN, [ValueError], the
    world being left as it was. *)
Theorem duration_in_dt_nearest_to_float_quotient
    (d : num) (fd s : float) (w : world) :
  Py.to_float d = Ok fd ->
  (0 <? s)%float = true ->
  (forall q, float_value (fd / s) = Some q ->
     exists n,
       snd (duration_in_dt d s w) = Ok n /\
       Py.round (fd / s) = Ok n /\
       nearest_integer q n /\
       ((Qabs (q - inject_Z n) == 1 # 2)%Q -> Z.even n = true)) /\
  (forall sg, Prim2SF (fd / s) = S754_infinity sg ->
     duration_in_dt d s w = (w, Raise OverflowError)) /\
  (Prim2SF (fd / s) = S754_nan ->
     duration_in_dt d s w = (w, Raise ValueError)).
Proof.
  intros Hd Hs.
  assert (rounded_quotient d s = Py.round (fd / s)) as Hrq.
  { unfold rounded_quotient, Py.truediv, Py.rbind.
    rewrite Hd, (positive_nonzero s Hs). reflexivity. }
  split; [|split].
  - intros q Hq.
    destruct (round_nearest _ _ Hq) as (n & Hr & Hnear & Htie).
    exists n. split; [|auto].
    rewrite Hr in Hrq.
    destruct (duration_in_dt_returns _ _ _ w Hrq) as (p & err & _ & _ & ->).
    reflexivity.
  - intros sg Hinf. apply duration_in_dt_raises. rewrite Hrq.
    unfold Py.round. rewrite Hinf. reflexivity.
  - intros Hnan. apply duration_in_dt_raises. rewrite Hrq.
    unfold Py.round. rewrite Hnan. reflexivity.
Qed.

Lemma duration_in_dt_nearest_to_float_quotient_witness :
  Py.to_float (PyInt 7) = Ok 7%float /\
  (0 <? 2)%float = true /\
  (exists q, float_value (7 / 2) = Some q /\
   exists n,
     snd (duration_in_dt (PyInt 7) 2 w0) = Ok n /\
     Py.round (7 / 2) = Ok n /\
     nearest_integer q n /\
     ((Qabs (q - inject_Z n) == 1 # 2)%Q -> Z.even n = true)) /\
  (Py.to_float (PyFloat 1e308) = Ok 1e308%float /\
   (0 <? 1e-308)%float = true /\
   Prim2SF (1e308 / 1e-308) = S754_infinity false /\
   duration_in_dt (PyFloat 1e308) 1e-308 w0 = (w0, Raise OverflowError)).
Proof.
  assert (Py.to_float (PyInt 7) = Ok 7%float) as Hd by (vm_compute; reflexivity).
  assert ((0 <? 2)%float = true) as Hs by reflexivity.
  assert (Prim2SF (1e308 / 1e-308) = S754_infinity false) as Hinf
    by (vm_compute; reflexivity).
  split; [exact Hd|]. split; [exact Hs|]. split.
  - eexists. split; [vm_compute; reflexivity|].
    apply (proj1 (duration_in_dt_nearest_to_float_quotient
                    (PyInt 7) 7 2 w0 Hd Hs)).
    vm_compute; reflexivity.
  - split; [reflexivity|]. split; [reflexivity|]. split; [exact Hinf|].
    exact (proj1 (proj2 (duration_in_dt_nearest_to_float_quotient
                    (PyFloat 1e308) 1e308 1e-308 w0 eq_refl eq_refl))
             false Hinf).
Defined.

(** *** C2 *)

(** C2, as stated, fails in both directions when the reconstruction error
    is the exact [|d - round(d/s) * s|]: for [d = 32.0] and [s = 0.1] the
    exact error is [2^-49], above [1e-15], and no warning is emitted (the
    binary64 product [320 * 0.1] is [32.0]); for [d = 11.860000000000001]
    and [s = 0.01] the exact error is below [1e-15] and a warning is
    emitted.  The same holds against the binary64 nearest to [1e-15]. *)
Lemma duration_in_dt_warning_not_exact_error :
  (exists qd qs qt,
     float_value 32 = Some qd /\ float_value 0.1 = Some qs /\
     float_value 1e-15 = Some qt /\
     duration_in_dt (PyFloat 32) 0.1 w0 = (w0, Ok 320) /\
     (1 # 10 ^ 15 < Qabs (qd - inject_Z 320 * qs))%Q /\
     (qt < Qabs (qd - inject_Z 320 * qs))%Q) /\
  (exists qd qs qt w',
     float_value 11.860000000000001 = Some qd /\
     float_value 0.01 = Some qs /\
     float_value 1e-15 = Some qt /\
     duration_in_dt (PyFloat 11.860000000000001) 0.01 w0 = (w', Ok 1186) /\
     warned w' <> [] /\
     (Qabs (qd - inject_Z 1186 * qs) <= 1 # 10 ^ 15)%Q /\
     (Qabs (qd - inject_Z 1186 * qs) <= qt)%Q).
Proof.
  split.
  - eexists; eexists; eexists. split; [vm_compute; reflexivity|].
    split; [vm_compute; reflexivity|]. split; [vm_compute; reflexivity|].
    split; [vm_compute; reflexivity|]. split; vm_compute; reflexivity.
  - eexists; eexists; eexists; eexists. split; [vm_compute; reflexivity|].
    split; [vm_compute; reflexivity|]. split; [vm_compute; reflexivity|].
    split; [vm_compute; reflexivity|]. split; [discriminate|].
    split; apply Qle_bool_iff; vm_compute; reflexivity.
Qed.

(** C2, amended: for every duration [d] that converts to a binary64 [fd]
    and every [s]: when [s] is not a zero and the binary64 quotient
    [fd / s] is finite, of exact value [q], [duration_in_dt d s] returns
    the integer [res] nearest to [q] (the even one on a tie); [res]
    converts to a binary64 [fres] exactly; one warning is emitted exactly
    when the error computed in binary64, [abs (fd - fres * s)] with the
    product and the difference each rounded, exceeds the binary64 nearest
    to [1e-15]; and [res] is returned whether or not the warning is
    emitted, the circuits untouched.  When [s] is a zero or the quotient
    is not finite, the call raises and no warning is emitted. *)
Theorem duration_in_dt_warns_iff (d : num) (fd s : float) (w : world) :
  Py.to_float d = Ok fd ->
  ((s =? 0)%float = false ->
   forall q, float_value (fd / s) = Some q ->
   exists res fres qres,
     nearest_integer q res /\
     ((Qabs (q - inject_Z res) == 1 # 2)%Q -> Z.even res = true) /\
     float_value fres = Some qres /\ (qres == inject_Z res)%Q /\
     duration_in_dt d s w
     = (if (1e-15 <? abs (fd - fres * s))%float
        then emit (UserWarning res (fres * s)%float d) w
        else w,
        Ok res)) /\
  ((s =? 0)%float = true \/ float_value (fd / s) = None ->
   exists e, duration_in_dt d s w = (w, Raise e)).
Proof.
  intros Hd. split.
  - intros Hs q Hq.
    destruct (round_nearest _ _ Hq) as (res & Hr & Hnear & Htie).
    destruct (float_of_int_round_exact _ _ Hr) as (fres & qres & Hf & Hv & Heq).
    exists res, fres, qres. repeat (split; [assumption|]).
    assert (rounded_quotient d s = Ok res) as Hrq.
    { unfold rounded_quotient, Py.truediv, Py.rbind. rewrite Hd, Hs. exact Hr. }
    destruct (duration_in_dt_returns _ _ _ w Hrq) as (p & err & Hp & Herr & ->).
    unfold reconstruction_error, Py.num_sub_float, Py.int_mul_float, Py.rbind
      in Hp, Herr.
    rewrite Hf in Hp, Herr. rewrite Hd in Herr.
    injection Hp as <-. injection Herr as <-. reflexivity.
  - intros Hbad.
    assert (exists e, rounded_quotient d s = Raise e) as [e He].
    { unfold rounded_quotient, Py.truediv, Py.rbind. rewrite Hd.
      destruct (s =? 0)%float eqn:Hs; [eauto|].
      destruct Hbad as [|Hnone]; [discriminate|].
      unfold float_value in Hnone. unfold Py.round.
      destruct (Prim2SF (fd / s)); try discriminate; eauto. }
    exists e. exact (duration_in_dt_raises d s e w He).
Qed.

Lemma duration_in_dt_warns_iff_witness :
  Py.to_float (PyFloat 1.0000004) = Ok 1.0000004%float /\
  (1e-6 =? 0)%float = false /\
  exists q, float_value (1.0000004 / 1e-6) = Some q /\
  exists res fres qres,
    nearest_integer q res /\
    ((Qabs (q - inject_Z res) == 1 # 2)%Q -> Z.even res = true) /\
    float_value fres = Some qres /\ (qres == inject_Z res)%Q /\
    duration_in_dt (PyFloat 1.0000004) 1e-6 w0
    = (if (1e-15 <? abs (1.0000004 - fres * 1e-6))%float
       then emit (UserWarning res (fres * 1e-6)%float (PyFloat 1.0000004)) w0
       else w0,
       Ok res).
Proof.
  split; [reflexivity|]. split; [reflexivity|].
  eexists. split; [vm_compute; reflexivity|].
  apply (proj1 (duration_in_dt_warns_iff (PyFloat 1.0000004) 1.0000004 1e-6 w0
                  eq_refl)).
  - reflexivity.
  - vm_compute; reflexivity.
Defined.

Example duration_in_dt_exact :
  duration_in_dt (PyFloat 1e-6) 1e-9 w0 = (w0, Ok 1000).
Proof. vm_compute. reflexivity. Qed.

(** At everyday sizes too: the binary64 nearest to 0.1 is above 0.1, the
    exact quotient of 0.75 by it is below 7.5, the binary64 quotient is
    7.5, and the result is 8. *)
Example duration_in_dt_three_quarters :
  snd (duration_in_dt (PyFloat 0.75) 0.1 w0) = Ok 8 /\
  exists qd qs,
    float_value 0.75 = Some qd /\ float_value 0.1 = Some qs /\
    (qd / qs < 15 # 2)%Q.
Proof.
  split; [vm_compute; reflexivity|].
  eexists; eexists. split; [vm_compute; reflexivity|].
  split; [vm_compute; reflexivity|]. vm_compute. reflexivity.
Qed.

Example duration_in_dt_rounded :
  duration_in_dt (PyFloat 1.0000004) 1e-6 w0
  = (emit (UserWarning 1000000 1 (PyFloat 1.0000004)) w0, Ok 1000000).
Proof. vm_compute. reflexivity. Qed.

(** ** Running [convert_durations_to_dt] *)

Lemma duration_in_dt_heap d s w :
  heap (fst (duration_in_dt d s w)) = heap w.
Proof.
  destruct (rounded_quotient d s) as [res|e] eqn:Hq.
  - destruct (duration_in_dt_returns d s res w Hq) as (p & err & _ & _ & ->).
    cbn. destruct (1e-15 <? err)%float; reflexivity.
  - rewrite (duration_in_dt_raises d s e w Hq). reflexivity.
Qed.

Lemma duration_in_dt_raise_world d s w w' e :
  duration_in_dt d s w = (w', Raise e) -> w' = w.
Proof.
  destruct (rounded_quotient d s) as [res|e'] eqn:Hq.
  - destruct (duration_in_dt_returns d s res w Hq) as (p & err & _ & _ & ->).
    discriminate.
  - rewrite (duration_in_dt_raises d s e' w Hq). now intros [= <- _].
Qed.

Lemma fresh_ref_new (h : gmap ref circuit) : h !! fresh (dom h) = None.
Proof. apply not_elem_of_dom, is_fresh. Qed.

Lemma fresh_ref_ne (h : gmap ref circuit) (l : ref) (c : circuit) :
  h !! l = Some c -> fresh (dom h) ≠ l.
Proof. intros Hl Heq. rewrite <- Heq, fresh_ref_new in Hl. discriminate. Qed.

Lemma assign_run circ n c w :
  heap w !! circ = Some c ->
  assign circ n w
  = (World (<[circ := converted c n]> (heap w)) (warned w), Ok tt).
Proof.
  intros Hc. unfold assign, bind, set_duration, set_unit, update.
  rewrite Hc. cbn. rewrite lookup_insert_eq, insert_insert_eq. reflexivity.
Qed.

Section ConvertRuns.

Variable apply_prefix : num -> string -> result num.

Lemma convert_unfold qc dt inplace w :
  convert_durations_to_dt apply_prefix qc dt inplace w
  = (circ <- (if inplace then ret qc else copy qc) ;;
     on_target apply_prefix circ dt ;;
     ret (if inplace then None else Some circ)) w.
Proof.
  unfold convert_durations_to_dt, on_target, bind, assign, bind.
  destruct ((if inplace then ret qc else copy qc) w) as [w1 [circ|e]];
    [|reflexivity].
  destruct (read circ w1) as [w2 [c|e]]; [|reflexivity].
  destruct (QuantumCircuit.duration c) as [d|]; cbn.
  - destruct (QuantumCircuit.unit c =? "dt")%string; cbn.
    + destruct inplace; reflexivity.
    + destruct (Py.endswith (QuantumCircuit.unit c) "s"); cbn;
        [|reflexivity].
      destruct (QuantumCircuit.unit c =? "s")%string; cbn.
      * destruct (duration_in_dt d dt w2) as [w3 [n|e]]; [|reflexivity].
        destruct (set_duration circ (Some (PyInt n)) w3) as [w4 [[]|e]];
          [|reflexivity].
        destruct (set_unit circ "dt" w4) as [w5 [[]|e]]; [|reflexivity].
        destruct inplace; reflexivity.
      * unfold lift.
        destruct (apply_prefix d (QuantumCircuit.unit c)) as [d'|e];
          [|reflexivity].
        destruct (duration_in_dt d' dt w2) as [w3 [n|e]]; [|reflexivity].
        destruct (set_duration circ (Some (PyInt n)) w3) as [w4 [[]|e]];
          [|reflexivity].
        destruct (set_unit circ "dt" w4) as [w5 [[]|e]]; [|reflexivity].
        destruct inplace; reflexivity.
  - destruct inplace; reflexivity.
Qed.

Section OnTarget.

Variables (circ : ref) (c : circuit) (dt : float) (w : world).
Hypothesis Hcirc : heap w !! circ = Some c.

Lemma on_target_skip :
  QuantumCircuit.duration c = None \/ QuantumCircuit.unit c = "dt"%string ->
  on_target apply_prefix circ dt w = (w, Ok tt).
Proof.
  intros Hskip. unfold on_target, bind, read. rewrite Hcirc.
  destruct (QuantumCircuit.duration c) as [d|]; [|reflexivity].
  destruct Hskip as [Hn|Hu]; [discriminate|]. rewrite Hu. reflexivity.
Qed.

Lemma on_target_invalid d :
  QuantumCircuit.duration c = Some d ->
  QuantumCircuit.unit c <> "dt"%string ->
  Py.endswith (QuantumCircuit.unit c) "s" = false ->
  on_target apply_prefix circ dt w = (w, Raise (InvalidTimeUnit (QuantumCircuit.unit c))).
Proof.
  intros Hd Hu He. unfold on_target, bind, read. rewrite Hcirc, Hd.
  apply String.eqb_neq in Hu. rewrite Hu, He. reflexivity.
Qed.

Lemma on_target_convert d :
  QuantumCircuit.duration c = Some d ->
  Py.endswith (QuantumCircuit.unit c) "s" = true ->
  on_target apply_prefix circ dt w
  = (seconds <-
       (if (QuantumCircuit.unit c =? "s")%string then ret d
        else lift (apply_prefix d (QuantumCircuit.unit c))) ;;
     n <- duration_in_dt seconds dt ;;
     assign circ n) w.
Proof.
  intros Hd He. unfold on_target at 1, bind at 1, read.
  rewrite Hcirc, Hd, He.
  destruct (QuantumCircuit.unit c =? "dt")%string eqn:Hu; [|reflexivity].
  apply String.eqb_eq in Hu. rewrite Hu in He. discriminate.
Qed.

(** An exception leaves the world as it was: nothing is written before
    the last point where one can be raised. *)
Lemma on_target_raise_world w' e :
  on_target apply_prefix circ dt w = (w', Raise e) -> w' = w.
Proof.
  unfold on_target, bind, read. rewrite Hcirc.
  destruct (QuantumCircuit.duration c) as [d|]; [|discriminate].
  destruct (QuantumCircuit.unit c =? "dt")%string; [discriminate|].
  destruct (Py.endswith (QuantumCircuit.unit c) "s");
    [|now intros [= <- _]].
  assert (forall seconds,
    match duration_in_dt seconds dt w with
    | (w1, Ok n) => assign circ n w1
    | (w1, Raise e1) => (w1, Raise e1)
    end = (w', Raise e) -> w' = w) as Hrun.
  { intros seconds.
    pose proof (duration_in_dt_heap seconds dt w) as Hh.
    destruct (duration_in_dt seconds dt w) as [w1 [n|e1]] eqn:Hrun.
    - cbn in Hh. rewrite (assign_run circ n c w1) by (rewrite Hh; exact Hcirc).
      discriminate.
    - intros [= <- _]. exact (duration_in_dt_raise_world _ _ _ _ _ Hrun). }
  destruct (QuantumCircuit.unit c =? "s")%string; cbn.
  - apply Hrun.
  - unfold lift.
    destruct (apply_prefix d (QuantumCircuit.unit c)) as [d'|e1].
    + apply Hrun.
    + now intros [= <- _].
Qed.

(** A return leaves in the store the circuit as it was, when the
    conversion is skipped, or converted; every other object is as it
    was. *)
Lemma on_target_return_world w' :
  on_target apply_prefix circ dt w = (w', Ok tt) ->
  exists c',
    heap w' = <[circ := c']> (heap w) /\
    match QuantumCircuit.duration c with
    | None => c' = c
    | Some _ =>
        if (QuantumCircuit.unit c =? "dt")%string then c' = c
        else exists n, c' = converted c n
    end.
Proof.
  unfold on_target, bind, read. rewrite Hcirc.
  destruct (QuantumCircuit.duration c) as [d|].
  2:{ intros [= <-]. exists c. now rewrite insert_id. }
  destruct (QuantumCircuit.unit c =? "dt")%string.
  { intros [= <-]. exists c. now rewrite insert_id. }
  destruct (Py.endswith (QuantumCircuit.unit c) "s"); [|discriminate].
  assert (forall seconds,
    match duration_in_dt seconds dt w with
    | (w1, Ok n) => assign circ n w1
    | (w1, Raise e1) => (w1, Raise e1)
    end = (w', Ok tt) ->
    exists c', heap w' = <[circ := c']> (heap w) /\
               exists n, c' = converted c n) as Hrun.
  { intros seconds.
    pose proof (duration_in_dt_heap seconds dt w) as Hh.
    destruct (duration_in_dt seconds dt w) as [w1 [n|e1]]; [|discriminate].
    cbn in Hh. rewrite (assign_run circ n c w1) by (rewrite Hh; exact Hcirc).
    intros [= <-]. exists (converted c n). cbn. rewrite Hh. eauto. }
  destruct (QuantumCircuit.unit c =? "s")%string; cbn.
  - apply Hrun.
  - unfold lift.
    destruct (apply_prefix d (QuantumCircuit.unit c)) as [d'|e1].
    + apply Hrun.
    + discriminate.
Qed.

End OnTarget.

Lemma copy_run qc c w :
  heap w !! qc = Some c ->
  copy qc w
  = (World (<[fresh (dom (heap w)) := c]> (heap w)) (warned w),
     Ok (fresh (dom (heap w)))).
Proof. intros Hqc. unfold copy. rewrite Hqc. reflexivity. Qed.

End ConvertRuns.

(** ** The claims about [convert_durations_to_dt] *)

Lemma five_ms_in_dt (w : world) :
  duration_in_dt (PyFloat 0.005) 1e-6 w = (w, Ok 5000).
Proof. destruct w as [h ws]. vm_compute. reflexivity. Qed.

Section Claims.

Variable apply_prefix : num -> string -> result num.

Variables (qc : ref) (c : circuit) (dt_in_sec : float) (w : world).
Hypothesis Hqc : heap w !! qc = Some c.

Lemma convert_inplace_run (dt : float) :
  convert_durations_to_dt apply_prefix qc dt true w
  = match on_target apply_prefix qc dt w with
    | (w', Ok _) => (w', Ok None)
    | (w', Raise e) => (w', Raise e)
    end.
Proof. rewrite convert_unfold. reflexivity. Qed.

Lemma convert_copy_run (dt : float) :
  convert_durations_to_dt apply_prefix qc dt false w
  = let circ := fresh (dom (heap w)) in
    match on_target apply_prefix circ dt
            (World (<[circ := c]> (heap w)) (warned w)) with
    | (w', Ok _) => (w', Ok (Some circ))
    | (w', Raise e) => (w', Raise e)
    end.
Proof.
  rewrite convert_unfold. unfold bind at 1. rewrite (copy_run qc c w Hqc).
  reflexivity.
Qed.

(** C3, amended: for every circuit whose duration is set and whose unit
    does not end in "s" and is not "dt", [convert_durations_to_dt], in
    place or not, raises [CircuitError] with the message
    [Invalid time unit: '<unit>'], which is the outcome of the call. *)
Theorem convert_invalid_unit_raises (d : num) (inplace : bool) :
  QuantumCircuit.duration c = Some d ->
  QuantumCircuit.unit c <> "dt"%string ->
  Py.endswith (QuantumCircuit.unit c) "s" = false ->
  snd (convert_durations_to_dt apply_prefix qc dt_in_sec inplace w)
  = Raise (CircuitError ("Invalid time unit: '" ++ QuantumCircuit.unit c ++ "'")).
Proof.
  intros Hd Hu He. destruct inplace.
  - rewrite convert_inplace_run.
    rewrite (on_target_invalid apply_prefix qc c dt_in_sec w Hqc d Hd Hu He).
    reflexivity.
  - rewrite convert_copy_run. cbv zeta.
    rewrite (on_target_invalid apply_prefix _ c dt_in_sec _
               (lookup_insert_eq _ _ _) d Hd Hu He).
    reflexivity.
Qed.

(** C4: for a circuit whose duration is [None], the call in place leaves
    the world as it was and returns [None]. *)
Theorem convert_unset_duration_inplace :
  QuantumCircuit.duration c = None ->
  convert_durations_to_dt apply_prefix qc dt_in_sec true w = (w, Ok None).
Proof.
  intros Hd. rewrite convert_inplace_run.
  rewrite (on_target_skip apply_prefix qc c dt_in_sec w Hqc (or_introl Hd)).
  reflexivity.
Qed.

(** C5: for a circuit whose unit is "dt" nothing is converted: in place
    the world is left as it was; otherwise the circuit is left as it was
    and the object returned has its fields; no warning, no exception. *)
Theorem convert_dt_unit_noop :
  QuantumCircuit.unit c = "dt"%string ->
  convert_durations_to_dt apply_prefix qc dt_in_sec true w = (w, Ok None) /\
  exists w' circ,
    convert_durations_to_dt apply_prefix qc dt_in_sec false w
      = (w', Ok (Some circ)) /\
    heap w' !! qc = Some c /\
    heap w' !! circ = Some c /\
    warned w' = warned w.
Proof.
  intros Hu. split.
  - rewrite convert_inplace_run.
    rewrite (on_target_skip apply_prefix qc c dt_in_sec w Hqc (or_intror Hu)).
    reflexivity.
  - rewrite convert_copy_run. cbv zeta.
    rewrite (on_target_skip apply_prefix _ c dt_in_sec _
               (lookup_insert_eq _ _ _) (or_intror Hu)).
    eexists; eexists. split; [reflexivity|]. cbn.
    rewrite lookup_insert_ne by exact (fresh_ref_ne _ _ _ Hqc).
    rewrite lookup_insert_eq. auto.
Qed.

(** C6, amended: the call with [inplace = false] never changes the
    circuit it is given, whatever the outcome; when it returns, it returns
    an object that the store did not hold before, so distinct from the
    input; and when the input's duration is set and its unit is not "dt",
    the object returned has unit "dt" and an integer duration. *)
Theorem convert_copy_frame (w' : world) (r : result (option ref)) :
  convert_durations_to_dt apply_prefix qc dt_in_sec false w = (w', r) ->
  heap w' !! qc = Some c /\
  match r with
  | Raise _ => True
  | Ok None => False
  | Ok (Some circ) =>
      circ <> qc /\
      heap w !! circ = None /\
      forall d,
        QuantumCircuit.duration c = Some d ->
        QuantumCircuit.unit c <> "dt"%string ->
        exists c' n,
          heap w' !! circ = Some c' /\
          QuantumCircuit.unit c' = "dt"%string /\
          QuantumCircuit.duration c' = Some (PyInt n)
  end.
Proof.
  rewrite convert_copy_run. cbv zeta.
  set (circ := fresh (dom (heap w))).
  assert (circ <> qc) as Hne by exact (fresh_ref_ne _ _ _ Hqc).
  set (w1 := World (<[circ := c]> (heap w)) (warned w)).
  assert (heap w1 !! circ = Some c) as Hc1 by apply lookup_insert_eq.
  destruct (on_target apply_prefix circ dt_in_sec w1) as [w2 [[]|e]] eqn:Hrun.
  - intros [= <- <-].
    destruct (on_target_return_world apply_prefix circ c dt_in_sec w1 Hc1 w2 Hrun)
      as (c' & Hh & Hc').
    rewrite Hh. split.
    + rewrite lookup_insert_ne by exact Hne. cbn.
      rewrite lookup_insert_ne by exact Hne. exact Hqc.
    + split; [exact Hne|]. split; [apply fresh_ref_new|].
      intros d Hd Hu. rewrite Hd in Hc'. apply String.eqb_neq in Hu.
      rewrite Hu in Hc'. destruct Hc' as [n ->].
      exists (converted c n), n. rewrite lookup_insert_eq. auto.
  - intros [= <- <-].
    rewrite (on_target_raise_world apply_prefix circ c dt_in_sec w1 Hc1 w2 e Hrun).
    split; [|exact I]. cbn. rewrite lookup_insert_ne by exact Hne. exact Hqc.
Qed.

(** C7: for a circuit with a set duration [d], when the unit is exactly
    "s" the converter is given [d] itself and [apply_prefix] is not
    called; for every other unit ending in "s" it is given what
    [apply_prefix d unit] returns, and an exception of [apply_prefix] is
    the outcome. *)
Theorem convert_seconds_argument (d : num) (inplace : bool) :
  QuantumCircuit.duration c = Some d ->
  (QuantumCircuit.unit c = "s"%string ->
   convert_durations_to_dt apply_prefix qc dt_in_sec inplace w
   = (circ <- (if inplace then ret qc else copy qc) ;;
      n <- duration_in_dt d dt_in_sec ;;
      set_duration circ (Some (PyInt n)) ;;
      set_unit circ "dt" ;;
      ret (if inplace then None else Some circ)) w) /\
  (QuantumCircuit.unit c <> "s"%string ->
   Py.endswith (QuantumCircuit.unit c) "s" = true ->
   convert_durations_to_dt apply_prefix qc dt_in_sec inplace w
   = (circ <- (if inplace then ret qc else copy qc) ;;
      match apply_prefix d (QuantumCircuit.unit c) with
      | Raise e => raise e
      | Ok seconds =>
          n <- duration_in_dt seconds dt_in_sec ;;
          set_duration circ (Some (PyInt n)) ;;
          set_unit circ "dt" ;;
          ret (if inplace then None else Some circ)
      end) w).
Proof.
  intros Hd.
  assert (forall circ w1, heap w1 !! circ = Some c ->
            Py.endswith (QuantumCircuit.unit c) "s" = true ->
            on_target apply_prefix circ dt_in_sec w1
            = (seconds <-
                 (if (QuantumCircuit.unit c =? "s")%string then ret d
                  else lift (apply_prefix d (QuantumCircuit.unit c))) ;;
               n <- duration_in_dt seconds dt_in_sec ;;
               assign circ n) w1) as Hrun.
  { intros circ w1 Hc He. exact (on_target_convert apply_prefix circ c dt_in_sec w1 Hc d Hd He). }
  assert (exists w1 circ,
            (if inplace then ret qc else copy qc) w = (w1, Ok circ) /\
            heap w1 !! circ = Some c) as (w1 & circ & Htarget & Hc).
  { destruct inplace.
    - exists w, qc. split; [reflexivity|exact Hqc].
    - rewrite (copy_run qc c w Hqc). eexists; eexists.
      split; [reflexivity|]. apply lookup_insert_eq. }
  split.
  - intros Hu. rewrite convert_unfold. unfold bind at 1 2 3.
    rewrite Htarget, Hrun by (try exact Hc; rewrite Hu; reflexivity).
    rewrite Hu. unfold assign. unfold bind, ret. cbn.
    destruct (duration_in_dt d dt_in_sec w1) as [w2 [n|e]]; [|reflexivity].
    destruct (set_duration circ (Some (PyInt n)) w2) as [w3 [[]|e]];
      [|reflexivity].
    destruct (set_unit circ "dt" w3) as [w4 [[]|e]]; reflexivity.
  - intros Hu He. rewrite convert_unfold. unfold bind at 1 2 3.
    rewrite Htarget, Hrun by assumption.
    apply String.eqb_neq in Hu. rewrite Hu. unfold assign. unfold bind, ret, lift, raise.
    destruct (apply_prefix d (QuantumCircuit.unit c)) as [seconds|e];
      [|reflexivity].
    destruct (duration_in_dt seconds dt_in_sec w1) as [w2 [n|e]]; [|reflexivity].
    destruct (set_duration circ (Some (PyInt n)) w2) as [w3 [[]|e]];
      [|reflexivity].
    destruct (set_unit circ "dt" w3) as [w4 [[]|e]]; reflexivity.
Qed.

(** C8: a circuit with [duration = 5] and [unit = "ms"], converted with
    [dt_in_sec = 1e-6], gets [unit = "dt"] and [duration = 5000] on the
    target (the circuit itself in place, the copy otherwise), without a
    warning, given that [apply_prefix 5 "ms"] is [0.005], the binary64
    nearest to five thousandths of a second. *)
Theorem convert_5ms_at_1us (inplace : bool) :
  QuantumCircuit.duration c = Some (PyInt 5) ->
  QuantumCircuit.unit c = "ms"%string ->
  apply_prefix (PyInt 5) "ms" = Ok (PyFloat 0.005) ->
  exists w' circ,
    convert_durations_to_dt apply_prefix qc 1e-6 inplace w
      = (w', Ok (if inplace then None else Some circ)) /\
    (inplace = true -> circ = qc) /\
    heap w' !! circ
      = Some (QuantumCircuit.mk (QuantumCircuit.data c) (Some (PyInt 5000)) "dt") /\
    warned w' = warned w.
Proof.
  intros Hd Hu Hms.
  assert (forall circ w1, heap w1 !! circ = Some c ->
            on_target apply_prefix circ 1e-6 w1
            = (World (<[circ := converted c 5000]> (heap w1)) (warned w1), Ok tt))
    as Hrun.
  { intros circ w1 Hc.
    rewrite (on_target_convert apply_prefix circ c 1e-6 w1 Hc (PyInt 5) Hd)
      by (rewrite Hu; reflexivity).
    rewrite Hu, Hms. unfold bind, lift.
    change ("ms" =? "s")%string with false. cbv beta iota.
    rewrite (five_ms_in_dt w1). apply assign_run, Hc. }
  destruct inplace.
  - exists (World (<[qc := converted c 5000]> (heap w)) (warned w)), qc.
    rewrite convert_inplace_run, (Hrun qc w Hqc). cbn.
    rewrite lookup_insert_eq. auto.
  - eexists; eexists. rewrite convert_copy_run. cbv zeta.
    rewrite Hrun by apply lookup_insert_eq.
    split; [reflexivity|]. split; [discriminate|]. cbn.
    rewrite lookup_insert_eq. auto.
Qed.

(** C9: when the call in place raises the invalid-time-unit error, the
    world is as it was before the call, and so are the fields of the
    circuit. *)
Theorem convert_invalid_unit_atomic (w' : world) (u : string) :
  convert_durations_to_dt apply_prefix qc dt_in_sec true w
    = (w', Raise (InvalidTimeUnit u)) ->
  w' = w /\ heap w' !! qc = Some c.
Proof.
  rewrite convert_inplace_run.
  destruct (on_target apply_prefix qc dt_in_sec w) as [w1 [[]|e]] eqn:Hrun;
    [discriminate|].
  intros [= <- _].
  rewrite (on_target_raise_world apply_prefix qc c dt_in_sec w Hqc w1 e Hrun).
  auto.
Qed.

(** C10: when the conversion is skipped (the duration is [None], or the
    unit is "dt"), the call with [inplace = false] returns an object that
    the store did not hold before, distinct from the input, with the
    input's fields, and leaves the input as it was. *)
Theorem convert_copy_skipped :
  QuantumCircuit.duration c = None \/ QuantumCircuit.unit c = "dt"%string ->
  exists w' circ,
    convert_durations_to_dt apply_prefix qc dt_in_sec false w
      = (w', Ok (Some circ)) /\
    circ <> qc /\
    heap w !! circ = None /\
    heap w' !! circ = Some c /\
    heap w' !! qc = Some c.
Proof.
  intros Hskip. rewrite convert_copy_run. cbv zeta.
  rewrite (on_target_skip apply_prefix _ c dt_in_sec _
             (lookup_insert_eq _ _ _) Hskip).
  eexists; eexists. split; [reflexivity|].
  split; [exact (fresh_ref_ne _ _ _ Hqc)|].
  split; [apply fresh_ref_new|]. cbn.
  rewrite lookup_insert_eq.
  rewrite lookup_insert_ne by exact (fresh_ref_ne _ _ _ Hqc). auto.
Qed.

End Claims.

(** ** The theorems at concrete circuits *)

(** C3, as stated, fails: a circuit whose unit, "Hz", does not end in "s"
    and is not "dt", but whose duration is [None], is left alone and no
    exception is raised. *)
Lemma convert_invalid_unit_unset_duration :
  QuantumCircuit.unit c_unset_hz <> "dt"%string /\
  Py.endswith (QuantumCircuit.unit c_unset_hz) "s" = false /\
  convert_durations_to_dt apply_prefix_si qc1 1e-9 true (store1 c_unset_hz)
  = (store1 c_unset_hz, Ok None).
Proof.
  split; [discriminate|]. split; vm_compute; reflexivity.
Qed.

Lemma convert_invalid_unit_raises_witness :
  heap (store1 c_hz) !! qc1 = Some c_hz /\
  QuantumCircuit.duration c_hz = Some (PyInt 5) /\
  QuantumCircuit.unit c_hz <> "dt"%string /\
  Py.endswith (QuantumCircuit.unit c_hz) "s" = false /\
  snd (convert_durations_to_dt apply_prefix_si qc1 1e-9 true (store1 c_hz))
  = Raise (CircuitError "Invalid time unit: 'Hz'").
Proof.
  assert (heap (store1 c_hz) !! qc1 = Some c_hz) as Hqc
    by (vm_compute; reflexivity).
  assert (QuantumCircuit.unit c_hz <> "dt"%string) as Hu by discriminate.
  split; [exact Hqc|]. split; [reflexivity|]. split; [exact Hu|].
  split; [reflexivity|].
  exact (convert_invalid_unit_raises apply_prefix_si qc1 c_hz 1e-9
           (store1 c_hz) Hqc (PyInt 5) true eq_refl Hu eq_refl).
Defined.

Lemma convert_unset_duration_inplace_witness :
  heap (store1 c_unset_ms) !! qc1 = Some c_unset_ms /\
  QuantumCircuit.duration c_unset_ms = None /\
  convert_durations_to_dt apply_prefix_si qc1 1e-9 true (store1 c_unset_ms)
  = (store1 c_unset_ms, Ok None).
Proof.
  assert (heap (store1 c_unset_ms) !! qc1 = Some c_unset_ms) as Hqc
    by (vm_compute; reflexivity).
  split; [exact Hqc|]. split; [reflexivity|].
  exact (convert_unset_duration_inplace apply_prefix_si qc1 c_unset_ms 1e-9
           (store1 c_unset_ms) Hqc eq_refl).
Defined.

Lemma convert_dt_unit_noop_witness :
  heap (store1 c_scheduled) !! qc1 = Some c_scheduled /\
  QuantumCircuit.unit c_scheduled = "dt"%string /\
  convert_durations_to_dt apply_prefix_si qc1 1e-9 true (store1 c_scheduled)
  = (store1 c_scheduled, Ok None) /\
  exists w' circ,
    convert_durations_to_dt apply_prefix_si qc1 1e-9 false (store1 c_scheduled)
      = (w', Ok (Some circ)) /\
    heap w' !! qc1 = Some c_scheduled /\
    heap w' !! circ = Some c_scheduled /\
    warned w' = warned (store1 c_scheduled).
Proof.
  assert (heap (store1 c_scheduled) !! qc1 = Some c_scheduled) as Hqc
    by (vm_compute; reflexivity).
  split; [exact Hqc|]. split; [reflexivity|].
  exact (convert_dt_unit_noop apply_prefix_si qc1 c_scheduled 1e-9
           (store1 c_scheduled) Hqc eq_refl).
Defined.

(** C6, as stated, fails: the copy made of a circuit whose duration is
    [None] keeps its unit, "ms", and its duration, [None]. *)
Lemma convert_copy_unset_duration :
  exists w' circ,
    convert_durations_to_dt apply_prefix_si qc1 1e-9 false (store1 c_unset_ms)
      = (w', Ok (Some circ)) /\
    heap w' !! circ = Some c_unset_ms /\
    QuantumCircuit.unit c_unset_ms <> "dt"%string /\
    QuantumCircuit.duration c_unset_ms = None.
Proof.
  eexists; eexists. split; [vm_compute; reflexivity|].
  split; [vm_compute; reflexivity|]. split; [discriminate|reflexivity].
Qed.

Lemma convert_copy_frame_witness :
  let w := store1 c_5ms in
  let w' := fst (convert_durations_to_dt apply_prefix_si qc1 1e-6 false w) in
  heap w !! qc1 = Some c_5ms /\
  snd (convert_durations_to_dt apply_prefix_si qc1 1e-6 false w)
    = Ok (Some 2%positive) /\
  heap w' !! qc1 = Some c_5ms /\
  2%positive <> qc1 /\
  heap w !! 2%positive = None /\
  forall d,
    QuantumCircuit.duration c_5ms = Some d ->
    QuantumCircuit.unit c_5ms <> "dt"%string ->
    exists c' n,
      heap w' !! 2%positive = Some c' /\
      QuantumCircuit.unit c' = "dt"%string /\
      QuantumCircuit.duration c' = Some (PyInt n).
Proof.
  intros w w'.
  assert (heap w !! qc1 = Some c_5ms) as Hqc by (vm_compute; reflexivity).
  assert (convert_durations_to_dt apply_prefix_si qc1 1e-6 false w
          = (w', Ok (Some 2%positive))) as Hrun by (vm_compute; reflexivity).
  pose proof (convert_copy_frame apply_prefix_si qc1 c_5ms 1e-6 w Hqc
                w' (Ok (Some 2%positive)) Hrun) as [Hframe [Hne [Hnew Hconv]]].
  split; [exact Hqc|]. split; [vm_compute; reflexivity|].
  split; [exact Hframe|]. split; [exact Hne|]. split; [exact Hnew|exact Hconv].
Defined.

Lemma convert_seconds_argument_witness :
  (let w := store1 c_1us in
   heap w !! qc1 = Some c_1us /\
   QuantumCircuit.duration c_1us = Some (PyFloat 1e-6) /\
   QuantumCircuit.unit c_1us = "s"%string /\
   convert_durations_to_dt apply_prefix_si qc1 1e-9 true w
   = (circ <- ret qc1 ;;
      n <- duration_in_dt (PyFloat 1e-6) 1e-9 ;;
      set_duration circ (Some (PyInt n)) ;;
      set_unit circ "dt" ;;
      ret None) w) /\
  (let w := store1 c_5ms in
   heap w !! qc1 = Some c_5ms /\
   QuantumCircuit.duration c_5ms = Some (PyInt 5) /\
   QuantumCircuit.unit c_5ms <> "s"%string /\
   Py.endswith (QuantumCircuit.unit c_5ms) "s" = true /\
   convert_durations_to_dt apply_prefix_si qc1 1e-6 false w
   = (circ <- copy qc1 ;;
      match apply_prefix_si (PyInt 5) (QuantumCircuit.unit c_5ms) with
      | Raise e => raise e
      | Ok seconds =>
          n <- duration_in_dt seconds 1e-6 ;;
          set_duration circ (Some (PyInt n)) ;;
          set_unit circ "dt" ;;
          ret (Some circ)
      end) w).
Proof.
  split; intros w.
  - assert (heap w !! qc1 = Some c_1us) as Hqc by (vm_compute; reflexivity).
    split; [exact Hqc|]. split; [reflexivity|]. split; [reflexivity|].
    exact (proj1 (convert_seconds_argument apply_prefix_si qc1 c_1us 1e-9 w Hqc
                    (PyFloat 1e-6) true eq_refl) eq_refl).
  - assert (heap w !! qc1 = Some c_5ms) as Hqc by (vm_compute; reflexivity).
    assert (QuantumCircuit.unit c_5ms <> "s"%string) as Hu by discriminate.
    split; [exact Hqc|]. split; [reflexivity|]. split; [exact Hu|].
    split; [reflexivity|].
    exact (proj2 (convert_seconds_argument apply_prefix_si qc1 c_5ms 1e-6 w Hqc
                    (PyInt 5) false eq_refl) Hu eq_refl).
Defined.

Lemma convert_5ms_at_1us_witness :
  let w := store1 c_5ms in
  heap w !! qc1 = Some c_5ms /\
  QuantumCircuit.duration c_5ms = Some (PyInt 5) /\
  QuantumCircuit.unit c_5ms = "ms"%string /\
  apply_prefix_si (PyInt 5) "ms" = Ok (PyFloat 0.005) /\
  exists w' circ,
    convert_durations_to_dt apply_prefix_si qc1 1e-6 true w = (w', Ok None) /\
    (true = true -> circ = qc1) /\
    heap w' !! circ
      = Some (QuantumCircuit.mk (QuantumCircuit.data c_5ms)
                (Some (PyInt 5000)) "dt") /\
    warned w' = warned w.
Proof.
  intros w.
  assert (heap w !! qc1 = Some c_5ms) as Hqc by (vm_compute; reflexivity).
  assert (apply_prefix_si (PyInt 5) "ms" = Ok (PyFloat 0.005)) as Hms
    by (vm_compute; reflexivity).
  split; [exact Hqc|]. split; [reflexivity|]. split; [reflexivity|].
  split; [exact Hms|].
  exact (convert_5ms_at_1us apply_prefix_si qc1 c_5ms w Hqc true
           eq_refl eq_refl Hms).
Defined.

Lemma convert_invalid_unit_atomic_witness :
  let w := store1 c_hz in
  heap w !! qc1 = Some c_hz /\
  convert_durations_to_dt apply_prefix_si qc1 1e-9 true w
    = (w, Raise (InvalidTimeUnit "Hz")) /\
  w = w /\ heap w !! qc1 = Some c_hz.
Proof.
  intros w.
  assert (heap w !! qc1 = Some c_hz) as Hqc by (vm_compute; reflexivity).
  assert (convert_durations_to_dt apply_prefix_si qc1 1e-9 true w
          = (w, Raise (InvalidTimeUnit "Hz"))) as Hrun
    by (vm_compute; reflexivity).
  split; [exact Hqc|]. split; [exact Hrun|].
  exact (convert_invalid_unit_atomic apply_prefix_si qc1 c_hz 1e-9 w Hqc
           w "Hz"%string Hrun).
Defined.

Lemma convert_copy_skipped_witness :
  let w := store1 c_default in
  heap w !! qc1 = Some c_default /\
  (QuantumCircuit.duration c_default = None \/
   QuantumCircuit.unit c_default = "dt"%string) /\
  exists w' circ,
    convert_durations_to_dt apply_prefix_si qc1 1e-9 false w
      = (w', Ok (Some circ)) /\
    circ <> qc1 /\
    heap w !! circ = None /\
    heap w' !! circ = Some c_default /\
    heap w' !! qc1 = Some c_default.
Proof.
  intros w.
  assert (heap w !! qc1 = Some c_default) as Hqc by (vm_compute; reflexivity).
  split; [exact Hqc|]. split; [left; reflexivity|].
  exact (convert_copy_skipped apply_prefix_si qc1 c_default 1e-9 w Hqc
           (or_introl eq_refl)).
Defined.

(** ** Beyond the claims: what [duration_in_dt] raises *)

Lemma round_raises (x : float) (e : exn) :
  Py.round x = Raise e -> e = OverflowError \/ e = ValueError.
Proof.
  unfold Py.round. destruct (Prim2SF x); intros [= <-]; auto.
Qed.

Lemma to_float_raises (d : num) (e : exn) :
  Py.to_float d = Raise e -> e = OverflowError.
Proof.
  destruct d as [z|f]; [|discriminate]. cbn. unfold Py.float_of_int.
  destruct (Z.abs z <? 2 ^ 1024 - 2 ^ 970); [discriminate|]. now intros [= <-].
Qed.

Lemma rounded_quotient_raises (d : num) (s : float) (e : exn) :
  rounded_quotient d s = Raise e -> arithmetic_error e.
Proof.
  unfold rounded_quotient, Py.truediv, arithmetic_error.
  destruct (Py.to_float d) as [fd|e'] eqn:Hd; cbn.
  - destruct (s =? 0)%float; cbn.
    + intros [= <-]. auto.
    + intros Hr. apply round_raises in Hr. tauto.
  - intros [= <-]. apply to_float_raises in Hd. auto.
Qed.

(** X1: for a duration that converts to a float, [duration_in_dt] raises
    [ZeroDivisionError] exactly when [dt_in_sec] is a zero, of either
    sign; it does not return an infinity or a NaN. *)
Theorem duration_in_dt_zero_division (d : num) (fd s : float) (w : world) :
  Py.to_float d = Ok fd ->
  snd (duration_in_dt d s w) = Raise ZeroDivisionError
  <-> (s =? 0)%float = true.
Proof.
  intros Hd.
  assert (rounded_quotient d s
          = if (s =? 0)%float then Raise ZeroDivisionError
            else Py.round (fd / s)) as Hq.
  { unfold rounded_quotient, Py.truediv. rewrite Hd. cbn.
    destruct (s =? 0)%float; reflexivity. }
  destruct (s =? 0)%float.
  - rewrite (duration_in_dt_raises d s _ w Hq). cbn. tauto.
  - split; [|discriminate].
    destruct (Py.round (fd / s)) as [n|e] eqn:Hr.
    + destruct (duration_in_dt_returns d s n w Hq) as (p & err & _ & _ & ->).
      discriminate.
    + rewrite (duration_in_dt_raises d s e w Hq). cbn. intros [= ->].
      apply round_raises in Hr. destruct Hr; discriminate.
Qed.

Lemma duration_in_dt_zero_division_witness :
  Py.to_float (PyInt 5) = Ok 5%float /\
  (snd (duration_in_dt (PyInt 5) (-0) w0) = Raise ZeroDivisionError
   <-> (-0 =? 0)%float = true).
Proof.
  split; [vm_compute; reflexivity|].
  apply (duration_in_dt_zero_division (PyInt 5) 5 (-0) w0).
  vm_compute; reflexivity.
Defined.

Lemma duration_in_dt_raises_arithmetic_aux
    (d : num) (s : float) (w w' : world) (e : exn) :
  duration_in_dt d s w = (w', Raise e) ->
  arithmetic_error e /\ w' = w.
Proof.
  destruct (rounded_quotient d s) as [res|e'] eqn:Hq.
  - destruct (duration_in_dt_returns d s res w Hq) as (p & err & _ & _ & ->).
    discriminate.
  - rewrite (duration_in_dt_raises d s e' w Hq). intros [= <- <-].
    split; [exact (rounded_quotient_raises d s e' Hq)|reflexivity].
Qed.

(** X2: whatever [duration_in_dt] raises is [ZeroDivisionError],
    [OverflowError] or [ValueError], and it is raised before anything is
    recorded: the world is as it was. *)
Theorem duration_in_dt_raises_arithmetic
    (d : num) (s : float) (w w' : world) (e : exn) :
  duration_in_dt d s w = (w', Raise e) ->
  arithmetic_error e /\ w' = w.
Proof.
  intros Hrun.
  pose proof (duration_in_dt_raises_arithmetic_aux d s w w' e Hrun) as [He Hw].
  split; [exact He|exact Hw].
Qed.

Lemma duration_in_dt_raises_arithmetic_witness :
  duration_in_dt (PyFloat 1e308) 1e-308 w0 = (w0, Raise OverflowError) /\
  arithmetic_error OverflowError /\ w0 = w0.
Proof.
  assert (duration_in_dt (PyFloat 1e308) 1e-308 w0 = (w0, Raise OverflowError))
    as Hrun by (vm_compute; reflexivity).
  split; [exact Hrun|].
  exact (duration_in_dt_raises_arithmetic _ _ _ _ _ Hrun).
Defined.

Lemma zero_float_spec (f : float) :
  (f =? 0)%float = true -> exists sg, Prim2SF f = S754_zero sg.
Proof.
  rewrite FloatAxioms.eqb_spec.
  replace (Prim2SF 0%float) with (S754_zero false) by reflexivity.
  unfold SFeqb, SFcompare.
  destruct (Prim2SF f) as [sg|[]| |[] m e]; try discriminate. eauto.
Qed.

Lemma nonzero_number_spec (s : float) :
  (s =? 0)%float = false -> is_nan s = false ->
  (exists sg, Prim2SF s = S754_infinity sg) \/
  (exists sg m e, Prim2SF s = S754_finite sg m e).
Proof.
  unfold is_nan. rewrite !FloatAxioms.eqb_spec.
  replace (Prim2SF 0%float) with (S754_zero false) by reflexivity.
  unfold SFeqb, SFcompare.
  destruct (Prim2SF s) as [sg|sg| |sg m e]; try discriminate; eauto 6.
Qed.

(** X3: a zero duration ([0], [0.0] or [-0.0]) is [0] dt, without a
    warning, for every [dt_in_sec] that is neither a zero nor a NaN, the
    infinities included. *)
Theorem duration_in_dt_of_zero (d : num) (fd s : float) (w : world) :
  Py.to_float d = Ok fd ->
  (fd =? 0)%float = true ->
  (s =? 0)%float = false ->
  is_nan s = false ->
  duration_in_dt d s w = (w, Ok 0).
Proof.
  intros Hd Hz Hs Hn.
  destruct (zero_float_spec fd Hz) as [sg Hfd].
  assert (exists sq, Prim2SF (fd / s) = S754_zero sq) as [sq Hq].
  { rewrite FloatAxioms.div_spec, Hfd. unfold SF64div, SFdiv.
    destruct (nonzero_number_spec s Hs Hn) as [[ss ->]|(ss & m & e & ->)];
      eauto. }
  assert (rounded_quotient d s = Ok 0) as Hrq.
  { unfold rounded_quotient, Py.truediv, Py.rbind. rewrite Hd, Hs.
    unfold Py.round. rewrite Hq. reflexivity. }
  destruct (duration_in_dt_returns d s 0 w Hrq) as (p & err & Hp & Herr & ->).
  change (Py.int_mul_float 0 s) with (Ok (0 * s)%float) in Hp.
  injection Hp as <-.
  unfold reconstruction_error, Py.num_sub_float in Herr.
  change (Py.int_mul_float 0 s) with (Ok (0 * s)%float) in Herr.
  unfold Py.rbind in Herr. rewrite Hd in Herr. injection Herr as <-.
  assert ((1e-15 <? abs (fd - 0 * s))%float = false) as ->; [|reflexivity].
  rewrite FloatAxioms.ltb_spec, FloatAxioms.abs_spec, FloatAxioms.sub_spec,
    FloatAxioms.mul_spec, Hfd.
  replace (Prim2SF 0%float) with (S754_zero false) by reflexivity.
  unfold SF64sub, SF64mul, SFmul.
  destruct (nonzero_number_spec s Hs Hn) as [[ss ->]|(ss & m & e & ->)].
  - destruct sg; reflexivity.
  - destruct sg, ss; reflexivity.
Qed.

Lemma duration_in_dt_of_zero_witness :
  Py.to_float (PyInt 0) = Ok 0%float /\
  (0 =? 0)%float = true /\
  (infinity =? 0)%float = false /\
  is_nan infinity = false /\
  duration_in_dt (PyInt 0) infinity w0 = (w0, Ok 0).
Proof.
  split; [vm_compute; reflexivity|]. split; [reflexivity|].
  split; [reflexivity|]. split; [reflexivity|].
  apply (duration_in_dt_of_zero (PyInt 0) 0 infinity w0);
    vm_compute; reflexivity.
Defined.

(** ** Beyond the claims: [convert_durations_to_dt] *)

Lemma duration_in_dt_transport d s w w' r v :
  duration_in_dt d s w = (w', r) ->
  exists v',
    duration_in_dt d s v = (v', r) /\
    heap v' = heap v /\
    (warned v = warned w -> warned v' = warned w').
Proof.
  destruct (rounded_quotient d s) as [res|e] eqn:Hq.
  - destruct (duration_in_dt_returns d s res w Hq) as (p & err & Hp & He & ->).
    destruct (duration_in_dt_returns d s res v Hq) as (p' & err' & Hp' & He' & ->).
    rewrite Hp in Hp'. injection Hp' as <-.
    rewrite He in He'. injection He' as <-.
    intros [= <- <-]. eexists. split; [reflexivity|].
    destruct (1e-15 <? err)%float; cbn; split; auto.
    intros ->. reflexivity.
  - rewrite (duration_in_dt_raises d s e w Hq), (duration_in_dt_raises d s e v Hq).
    intros [= <- <-]. eauto.
Qed.

Section Extras.

Variable apply_prefix : num -> string -> result num.

Lemma on_target_run circ c dt w :
  heap w !! circ = Some c ->
  on_target apply_prefix circ dt w
  = match QuantumCircuit.duration c with
    | None => (w, Ok tt)
    | Some d =>
        if (QuantumCircuit.unit c =? "dt")%string then (w, Ok tt)
        else if Py.endswith (QuantumCircuit.unit c) "s" then
          match seconds_of apply_prefix c d with
          | Raise e => (w, Raise e)
          | Ok seconds =>
              match duration_in_dt seconds dt w with
              | (w1, Ok n) =>
                  (World (<[circ := converted c n]> (heap w)) (warned w1), Ok tt)
              | (w1, Raise e) => (w1, Raise e)
              end
          end
        else (w, Raise (InvalidTimeUnit (QuantumCircuit.unit c)))
    end.
Proof.
  intros Hc. unfold on_target, bind, read, seconds_of. rewrite Hc.
  destruct (QuantumCircuit.duration c) as [d|]; [|reflexivity].
  destruct (QuantumCircuit.unit c =? "dt")%string; [reflexivity|].
  destruct (Py.endswith (QuantumCircuit.unit c) "s"); [|reflexivity].
  assert (forall seconds,
    match duration_in_dt seconds dt w with
    | (w1, Ok n) => assign circ n w1
    | (w1, Raise e1) => (w1, Raise e1)
    end
    = match duration_in_dt seconds dt w with
      | (w1, Ok n) =>
          (World (<[circ := converted c n]> (heap w)) (warned w1), Ok tt)
      | (w1, Raise e) => (w1, Raise e)
      end) as Hrun.
  { intros seconds. pose proof (duration_in_dt_heap seconds dt w) as Hh.
    destruct (duration_in_dt seconds dt w) as [w1 [n|e1]]; [|reflexivity].
    cbn in Hh. rewrite (assign_run circ n c w1) by (rewrite Hh; exact Hc).
    rewrite Hh. reflexivity. }
  destruct (QuantumCircuit.unit c =? "s")%string; cbn.
  - apply Hrun.
  - unfold lift. destruct (apply_prefix d (QuantumCircuit.unit c)); [apply Hrun|].
    reflexivity.
Qed.

(** The outcome on the target does not depend on which object it is, nor
    on the rest of the store. *)
Lemma on_target_transport circ c dt w w' r circ2 v :
  heap w !! circ = Some c ->
  heap v !! circ2 = Some c ->
  warned v = warned w ->
  on_target apply_prefix circ dt w = (w', r) ->
  exists v',
    on_target apply_prefix circ2 dt v = (v', r) /\
    warned v' = warned w' /\
    heap v' !! circ2 = heap w' !! circ.
Proof.
  intros Hc Hc2 Hw. rewrite (on_target_run circ c dt w Hc).
  rewrite (on_target_run circ2 c dt v Hc2).
  destruct (QuantumCircuit.duration c) as [d|].
  2:{ intros [= <- <-]. eexists. split; [reflexivity|]. split; congruence. }
  destruct (QuantumCircuit.unit c =? "dt")%string.
  { intros [= <- <-]. eexists. split; [reflexivity|]. split; congruence. }
  destruct (Py.endswith (QuantumCircuit.unit c) "s").
  2:{ intros [= <- <-]. eexists. split; [reflexivity|]. split; congruence. }
  destruct (seconds_of apply_prefix c d) as [seconds|e].
  2:{ intros [= <- <-]. eexists. split; [reflexivity|]. split; congruence. }
  destruct (duration_in_dt seconds dt w) as [w1 r1] eqn:Hrun.
  destruct (duration_in_dt_transport _ _ _ _ _ v Hrun) as (v1 & -> & Hh & Hws).
  specialize (Hws Hw).
  pose proof (duration_in_dt_heap seconds dt w) as Hh1. rewrite Hrun in Hh1.
  cbn in Hh1.
  destruct r1 as [n|e].
  - intros [= <- <-]. eexists. split; [reflexivity|]. cbn.
    rewrite !lookup_insert_eq. auto.
  - intros [= <- <-]. eexists. split; [reflexivity|]. split; [exact Hws|].
    congruence.
Qed.

Variables (qc : ref) (c : circuit) (dt_in_sec : float) (w : world).
Hypothesis Hqc : heap w !! qc = Some c.

(** X4: whatever exception the call in place raises (the invalid unit,
    one of [apply_prefix], one of the arithmetic), the world is as it was
    before the call: nothing is written before the last point that can
    raise. *)
Theorem convert_inplace_atomic (w' : world) (e : exn) :
  convert_durations_to_dt apply_prefix qc dt_in_sec true w = (w', Raise e) ->
  w' = w.
Proof.
  rewrite convert_inplace_run.
  destruct (on_target apply_prefix qc dt_in_sec w) as [w1 [[]|e1]] eqn:Hrun;
    [discriminate|].
  intros [= <- _].
  exact (on_target_raise_world apply_prefix qc c dt_in_sec w Hqc w1 e1 Hrun).
Qed.

(** X5: the exceptions of the call, in place or not: the invalid time
    unit, for a set duration whose unit is not "dt" and does not end in
    "s"; what [apply_prefix] raises on the duration and a unit other than
    "s"; or an arithmetic exception of [duration_in_dt]. *)
Theorem convert_raises_only (inplace : bool) (w' : world) (e : exn) :
  convert_durations_to_dt apply_prefix qc dt_in_sec inplace w = (w', Raise e) ->
  (e = InvalidTimeUnit (QuantumCircuit.unit c) /\
   QuantumCircuit.duration c <> None /\
   QuantumCircuit.unit c <> "dt"%string /\
   Py.endswith (QuantumCircuit.unit c) "s" = false) \/
  (exists d, QuantumCircuit.duration c = Some d /\
             QuantumCircuit.unit c <> "s"%string /\
             apply_prefix d (QuantumCircuit.unit c) = Raise e) \/
  arithmetic_error e.
Proof.
  assert (forall circ v v1,
            heap v !! circ = Some c ->
            on_target apply_prefix circ dt_in_sec v = (v1, Raise e) ->
            (e = InvalidTimeUnit (QuantumCircuit.unit c) /\
             QuantumCircuit.duration c <> None /\
             QuantumCircuit.unit c <> "dt"%string /\
             Py.endswith (QuantumCircuit.unit c) "s" = false) \/
            (exists d, QuantumCircuit.duration c = Some d /\
                       QuantumCircuit.unit c <> "s"%string /\
                       apply_prefix d (QuantumCircuit.unit c) = Raise e) \/
            arithmetic_error e) as Hon.
  { intros circ v v1 Hc. rewrite (on_target_run circ c dt_in_sec v Hc).
    destruct (QuantumCircuit.duration c) as [d|]; [|discriminate].
    destruct (QuantumCircuit.unit c =? "dt")%string eqn:Hdt; [discriminate|].
    apply String.eqb_neq in Hdt.
    destruct (Py.endswith (QuantumCircuit.unit c) "s") eqn:He.
    - unfold seconds_of.
      destruct (QuantumCircuit.unit c =? "s")%string eqn:Hs.
      + destruct (duration_in_dt d dt_in_sec v) as [v2 [n|e2]] eqn:Hrun;
          [discriminate|].
        intros [= _ <-]. right; right.
        exact (proj1 (duration_in_dt_raises_arithmetic_aux _ _ _ _ _ Hrun)).
      + apply String.eqb_neq in Hs.
        destruct (apply_prefix d (QuantumCircuit.unit c)) as [seconds|e2] eqn:Hp.
        * destruct (duration_in_dt seconds dt_in_sec v) as [v2 [n|e3]] eqn:Hrun;
            [discriminate|].
          intros [= _ <-]. right; right.
          exact (proj1 (duration_in_dt_raises_arithmetic_aux _ _ _ _ _ Hrun)).
        * intros [= _ <-]. right; left. eauto.
    - intros [= _ <-]. left. repeat split; auto; discriminate. }
  destruct inplace.
  - rewrite convert_inplace_run.
    destruct (on_target apply_prefix qc dt_in_sec w) as [w1 [[]|e1]] eqn:Hrun;
      [discriminate|].
    intros [= _ <-]. exact (Hon qc w w1 Hqc Hrun).
  - rewrite (convert_copy_run apply_prefix qc c w Hqc). cbv zeta.
    match goal with
    | |- context [on_target apply_prefix ?circ dt_in_sec ?v] =>
        destruct (on_target apply_prefix circ dt_in_sec v)
          as [w1 [[]|e1]] eqn:Hrun; [discriminate|];
        intros [= _ <-];
        exact (Hon circ v w1 (lookup_insert_eq _ _ _) Hrun)
    end.
Qed.

(** X6: the call in place touches one object and two fields: every other
    object of the store is as it was, and the circuit keeps its
    instruction list, whatever the outcome. *)
Theorem convert_inplace_frame (w' : world) (r : result (option ref)) :
  convert_durations_to_dt apply_prefix qc dt_in_sec true w = (w', r) ->
  (forall l, l <> qc -> heap w' !! l = heap w !! l) /\
  exists c', heap w' !! qc = Some c' /\
             QuantumCircuit.data c' = QuantumCircuit.data c.
Proof.
  rewrite convert_inplace_run.
  destruct (on_target apply_prefix qc dt_in_sec w) as [w1 [[]|e1]] eqn:Hrun.
  - intros [= <- _].
    destruct (on_target_return_world apply_prefix qc c dt_in_sec w Hqc w1 Hrun)
      as (c' & Hh & Hc').
    rewrite Hh. split.
    + intros l Hl. apply lookup_insert_ne. congruence.
    + exists c'. split; [apply lookup_insert_eq|].
      destruct (QuantumCircuit.duration c) as [d0|]; [|now subst].
      destruct (QuantumCircuit.unit c =? "dt")%string; [now subst|].
      destruct Hc' as [n ->]. reflexivity.
  - intros [= <- _].
    rewrite (on_target_raise_world apply_prefix qc c dt_in_sec w Hqc w1 e1 Hrun).
    split; [reflexivity|]. exists c. auto.
Qed.

(** X7: the call with [inplace = false] changes no object the store
    held, whatever the outcome, and the object it returns has the
    instruction list of the input. *)
Theorem convert_copy_preserves_store (w' : world) (r : result (option ref)) :
  convert_durations_to_dt apply_prefix qc dt_in_sec false w = (w', r) ->
  (forall l c0, heap w !! l = Some c0 -> heap w' !! l = Some c0) /\
  (forall circ, r = Ok (Some circ) ->
     exists c', heap w' !! circ = Some c' /\
                QuantumCircuit.data c' = QuantumCircuit.data c).
Proof.
  rewrite (convert_copy_run apply_prefix qc c w Hqc). cbv zeta.
  set (circ := fresh (dom (heap w))).
  set (w1 := World (<[circ := c]> (heap w)) (warned w)).
  assert (heap w1 !! circ = Some c) as Hc1 by apply lookup_insert_eq.
  assert (forall l c0, heap w !! l = Some c0 -> l <> circ) as Hold.
  { intros l c0 Hl ->. unfold circ in Hl. rewrite fresh_ref_new in Hl.
    discriminate. }
  destruct (on_target apply_prefix circ dt_in_sec w1) as [w2 [[]|e]] eqn:Hrun.
  - intros [= <- <-].
    destruct (on_target_return_world apply_prefix circ c dt_in_sec w1 Hc1 w2 Hrun)
      as (c' & Hh & Hc').
    rewrite Hh. split.
    + intros l c0 Hl. pose proof (Hold l c0 Hl) as Hne.
      rewrite lookup_insert_ne by congruence. cbn.
      rewrite lookup_insert_ne by congruence. exact Hl.
    + intros circ' [= <-]. exists c'. split; [apply lookup_insert_eq|].
      destruct (QuantumCircuit.duration c) as [d0|]; [|now subst].
      destruct (QuantumCircuit.unit c =? "dt")%string; [now subst|].
      destruct Hc' as [n ->]. reflexivity.
  - intros [= <- <-].
    rewrite (on_target_raise_world apply_prefix circ c dt_in_sec w1 Hc1 w2 e Hrun).
    split; [|discriminate].
    intros l c0 Hl. pose proof (Hold l c0 Hl) as Hne. cbn.
    rewrite lookup_insert_ne by congruence. exact Hl.
Qed.

(** X8: converting in place twice is converting once: after a call in
    place that returned, a second call, with any [dt_in_sec], changes
    nothing, emits no warning and returns [None]. *)
Theorem convert_inplace_idempotent
    (w' : world) (r : option ref) (dt2 : float) :
  convert_durations_to_dt apply_prefix qc dt_in_sec true w = (w', Ok r) ->
  convert_durations_to_dt apply_prefix qc dt2 true w' = (w', Ok None).
Proof.
  rewrite convert_inplace_run.
  destruct (on_target apply_prefix qc dt_in_sec w) as [w1 [[]|e1]] eqn:Hrun;
    [|discriminate].
  intros [= <- _].
  destruct (on_target_return_world apply_prefix qc c dt_in_sec w Hqc w1 Hrun)
    as (c' & Hh & Hc').
  assert (heap w1 !! qc = Some c') as Hqc' by (rewrite Hh; apply lookup_insert_eq).
  rewrite convert_unfold. unfold bind, ret.
  rewrite (on_target_skip apply_prefix qc c' dt2 w1 Hqc'); [reflexivity|].
  destruct (QuantumCircuit.duration c) as [d|] eqn:Hd.
  - destruct (QuantumCircuit.unit c =? "dt")%string eqn:Hu.
    + subst c'. right. apply String.eqb_eq. exact Hu.
    + destruct Hc' as [n ->]. right. reflexivity.
  - subst c'. left. exact Hd.
Qed.

(** X9: the two modes agree: the exception raised is the same, the
    warnings emitted are the same, and the object returned with
    [inplace = false] has the fields that the call in place leaves in the
    circuit. *)
Theorem convert_modes_agree
    (w1 w2 : world) (r1 r2 : result (option ref)) :
  convert_durations_to_dt apply_prefix qc dt_in_sec true w = (w1, r1) ->
  convert_durations_to_dt apply_prefix qc dt_in_sec false w = (w2, r2) ->
  warned w2 = warned w1 /\
  match r1 with
  | Raise e => r2 = Raise e
  | Ok _ =>
      exists circ, r2 = Ok (Some circ) /\ heap w2 !! circ = heap w1 !! qc
  end.
Proof.
  rewrite convert_inplace_run, (convert_copy_run apply_prefix qc c w Hqc).
  cbv zeta.
  set (circ := fresh (dom (heap w))).
  set (v := World (<[circ := c]> (heap w)) (warned w)).
  destruct (on_target apply_prefix qc dt_in_sec w) as [w1' r] eqn:Hrun.
  destruct (on_target_transport qc c dt_in_sec w w1' r circ v Hqc
              (lookup_insert_eq _ _ _) eq_refl Hrun) as (v' & -> & Hws & Hh).
  destruct r as [[]|e]; intros [= <- <-] [= <- <-].
  - split; [exact Hws|]. exists circ. auto.
  - split; [exact Hws|reflexivity].
Qed.

(** X10: seconds end to end: for a circuit whose unit is "s" and whose
    duration is a float [d], a positive [dt_in_sec] and a finite binary64
    quotient, the call in place does not raise and leaves in the circuit
    the unit "dt" and, as duration, an integer nearest to that quotient. *)
Theorem convert_seconds_inplace (d : float) (q : Q) :
  QuantumCircuit.duration c = Some (PyFloat d) ->
  QuantumCircuit.unit c = "s"%string ->
  (0 <? dt_in_sec)%float = true ->
  float_value (d / dt_in_sec) = Some q ->
  exists w' n,
    convert_durations_to_dt apply_prefix qc dt_in_sec true w = (w', Ok None) /\
    heap w' !! qc
      = Some (QuantumCircuit.mk (QuantumCircuit.data c) (Some (PyInt n)) "dt") /\
    nearest_integer q n.
Proof.
  intros Hd Hu Hs Hq.
  destruct (round_nearest _ _ Hq) as (n & Hr & Hnear & _).
  assert (rounded_quotient (PyFloat d) dt_in_sec = Ok n) as Hrq.
  { unfold rounded_quotient, Py.truediv. cbn.
    rewrite (positive_nonzero dt_in_sec Hs). exact Hr. }
  destruct (duration_in_dt_returns _ _ _ w Hrq) as (p & err & _ & _ & Hrun).
  rewrite convert_inplace_run, (on_target_run qc c dt_in_sec w Hqc).
  rewrite Hd, Hu. unfold seconds_of. rewrite Hu.
  change (("s" =? "dt")%string) with false.
  change (Py.endswith "s" "s") with true.
  change (("s" =? "s")%string) with true. cbv iota.
  rewrite Hrun. eexists; exists n. split; [reflexivity|]. cbn.
  rewrite lookup_insert_eq. auto.
Qed.

End Extras.

(** ** The further theorems at concrete circuits *)

Lemma convert_inplace_atomic_witness :
  let w := store1 c_1us in
  heap w !! qc1 = Some c_1us /\
  convert_durations_to_dt apply_prefix_si qc1 0 true w
    = (w, Raise ZeroDivisionError) /\
  w = w.
Proof.
  intros w.
  assert (heap w !! qc1 = Some c_1us) as Hqc by (vm_compute; reflexivity).
  assert (convert_durations_to_dt apply_prefix_si qc1 0 true w
          = (w, Raise ZeroDivisionError)) as Hrun by (vm_compute; reflexivity).
  split; [exact Hqc|]. split; [exact Hrun|].
  exact (convert_inplace_atomic apply_prefix_si qc1 c_1us 0 w Hqc
           w ZeroDivisionError Hrun).
Defined.

Lemma convert_raises_only_witness :
  let w := store1 c_hz in
  heap w !! qc1 = Some c_hz /\
  convert_durations_to_dt apply_prefix_si qc1 1e-9 false w
    = (fst (convert_durations_to_dt apply_prefix_si qc1 1e-9 false w),
       Raise (InvalidTimeUnit "Hz")) /\
  ((InvalidTimeUnit "Hz" = InvalidTimeUnit (QuantumCircuit.unit c_hz) /\
    QuantumCircuit.duration c_hz <> None /\
    QuantumCircuit.unit c_hz <> "dt"%string /\
    Py.endswith (QuantumCircuit.unit c_hz) "s" = false) \/
   (exists d, QuantumCircuit.duration c_hz = Some d /\
              QuantumCircuit.unit c_hz <> "s"%string /\
              apply_prefix_si d (QuantumCircuit.unit c_hz)
                = Raise (InvalidTimeUnit "Hz")) \/
   arithmetic_error (InvalidTimeUnit "Hz")).
Proof.
  intros w.
  assert (heap w !! qc1 = Some c_hz) as Hqc by (vm_compute; reflexivity).
  assert (convert_durations_to_dt apply_prefix_si qc1 1e-9 false w
          = (fst (convert_durations_to_dt apply_prefix_si qc1 1e-9 false w),
             Raise (InvalidTimeUnit "Hz"))) as Hrun
    by (vm_compute; reflexivity).
  split; [exact Hqc|]. split; [exact Hrun|].
  exact (convert_raises_only apply_prefix_si qc1 c_hz 1e-9 w Hqc false
           _ (InvalidTimeUnit "Hz") Hrun).
Defined.

Lemma convert_inplace_frame_witness :
  let w := store1 c_5ms in
  let w' := fst (convert_durations_to_dt apply_prefix_si qc1 1e-6 true w) in
  heap w !! qc1 = Some c_5ms /\
  (forall l, l <> qc1 -> heap w' !! l = heap w !! l) /\
  exists c', heap w' !! qc1 = Some c' /\
             QuantumCircuit.data c' = QuantumCircuit.data c_5ms.
Proof.
  intros w w'.
  assert (heap w !! qc1 = Some c_5ms) as Hqc by (vm_compute; reflexivity).
  split; [exact Hqc|].
  exact (convert_inplace_frame apply_prefix_si qc1 c_5ms 1e-6 w Hqc
           w' (Ok None) ltac:(vm_compute; reflexivity)).
Defined.

Lemma convert_copy_preserves_store_witness :
  let w := store1 c_5ms in
  let w' := fst (convert_durations_to_dt apply_prefix_si qc1 1e-6 false w) in
  heap w !! qc1 = Some c_5ms /\
  (forall l c0, heap w !! l = Some c0 -> heap w' !! l = Some c0) /\
  (forall circ, Ok (Some 2%positive) = Ok (Some circ) ->
     exists c', heap w' !! circ = Some c' /\
                QuantumCircuit.data c' = QuantumCircuit.data c_5ms).
Proof.
  intros w w'.
  assert (heap w !! qc1 = Some c_5ms) as Hqc by (vm_compute; reflexivity).
  split; [exact Hqc|].
  exact (convert_copy_preserves_store apply_prefix_si qc1 c_5ms 1e-6 w Hqc
           w' (Ok (Some 2%positive)) ltac:(vm_compute; reflexivity)).
Defined.

Lemma convert_inplace_idempotent_witness :
  let w := store1 c_5ms in
  let w' := fst (convert_durations_to_dt apply_prefix_si qc1 1e-6 true w) in
  heap w !! qc1 = Some c_5ms /\
  convert_durations_to_dt apply_prefix_si qc1 1e-6 true w = (w', Ok None) /\
  convert_durations_to_dt apply_prefix_si qc1 1e-9 true w' = (w', Ok None).
Proof.
  intros w w'.
  assert (heap w !! qc1 = Some c_5ms) as Hqc by (vm_compute; reflexivity).
  assert (convert_durations_to_dt apply_prefix_si qc1 1e-6 true w
          = (w', Ok None)) as Hrun by (vm_compute; reflexivity).
  split; [exact Hqc|]. split; [exact Hrun|].
  exact (convert_inplace_idempotent apply_prefix_si qc1 c_5ms 1e-6 w Hqc
           w' None 1e-9 Hrun).
Defined.

Lemma convert_modes_agree_witness :
  let w := store1 c_5ms in
  let w1 := fst (convert_durations_to_dt apply_prefix_si qc1 1e-6 true w) in
  let w2 := fst (convert_durations_to_dt apply_prefix_si qc1 1e-6 false w) in
  heap w !! qc1 = Some c_5ms /\
  warned w2 = warned w1 /\
  exists circ,
    Ok (Some 2%positive) = Ok (Some circ) /\ heap w2 !! circ = heap w1 !! qc1.
Proof.
  intros w w1 w2.
  assert (heap w !! qc1 = Some c_5ms) as Hqc by (vm_compute; reflexivity).
  split; [exact Hqc|].
  exact (convert_modes_agree apply_prefix_si qc1 c_5ms 1e-6 w Hqc
           w1 w2 (Ok None) (Ok (Some 2%positive))
           ltac:(vm_compute; reflexivity) ltac:(vm_compute; reflexivity)).
Defined.

Lemma convert_seconds_inplace_witness :
  let w := store1 c_1us in
  heap w !! qc1 = Some c_1us /\
  QuantumCircuit.duration c_1us = Some (PyFloat 1e-6) /\
  QuantumCircuit.unit c_1us = "s"%string /\
  (0 <? 1e-9)%float = true /\
  exists q, float_value (1e-6 / 1e-9) = Some q /\
  exists w' n,
    convert_durations_to_dt apply_prefix_si qc1 1e-9 true w = (w', Ok None) /\
    heap w' !! qc1
      = Some (QuantumCircuit.mk (QuantumCircuit.data c_1us)
                (Some (PyInt n)) "dt") /\
    nearest_integer q n.
Proof.
  intros w.
  assert (heap w !! qc1 = Some c_1us) as Hqc by (vm_compute; reflexivity).
  split; [exact Hqc|]. split; [reflexivity|]. split; [reflexivity|].
  split; [reflexivity|]. eexists. split; [vm_compute; reflexivity|].
  exact (convert_seconds_inplace apply_prefix_si qc1 c_1us 1e-9 w Hqc
           1e-6 _ eq_refl eq_refl eq_refl ltac:(vm_compute; reflexivity)).
Defined.
